(** * Code snippet manager: the store, the highlighting helper and the
    Tkinter controller of [main.py], embedded in Rocq.

    The development follows the layout of the source file:
    - Python values, exceptions and the outcome of a call;
    - [Snippet], the value object (class [Snippet]);
    - the SQLite table [snippets] and the three statements the program
      executes on it (class [SnippetDatabase] and the [DELETE] of
      [SnippetManagerApp.delete_snippet]);
    - [highlight_code_html], over an abstract Pygments;
    - the controller [SnippetManagerApp], over its widgets, the modal dialogs
      it opens and the user who answers them.

    What is outside [main.py] is modelled from its documented behaviour:
    - SQLite: a column [INTEGER PRIMARY KEY] (declared without
      [AUTOINCREMENT]) is the rowid; an insert that names no rowid takes 1 in
      an empty table, otherwise one more than the largest rowid in use, and
      when that is 9223372036854775807 it tries candidate rowids drawn at
      random and fails with SQLITE_FULL when none of them is free. A column
      [NOT NULL] rejects NULL and nothing else. A statement that fails leaves
      the table as it was. [SELECT *] walks the table in rowid order.
    - sqlite3 (Python): [None] is bound as NULL and [str] as TEXT, and they
      are read back the same way.
    - Tkinter: [askstring] returns the text of the entry ([""] when it is
      empty) on OK and [None] on Cancel; a callback's exception is reported
      and the main loop goes on. *)

From Stdlib Require Import ZArith List String Ascii Bool Lia.
Import ListNotations.

Open Scope string_scope.
Open Scope Z_scope.

(** ** Python values, exceptions, outcomes *)

(** The values that travel through the snippet fields: what [askstring]
    returns and what sqlite3 reads back from a TEXT column. *)
Inductive pyval : Type :=
| PyNone
| PyStr (s : string).

(** Truth value of an object: [None] and [""] are false. *)
Definition truthy (v : pyval) : bool :=
  match v with
  | PyNone => false
  | PyStr s => negb (String.eqb s "")
  end.

(** [not v]. *)
Definition py_not (v : pyval) : bool := negb (truthy v).

(** [f"{v}"]: the [str()] of the value. *)
Definition py_format (v : pyval) : string :=
  match v with
  | PyNone => "None"
  | PyStr s => s
  end.

Inductive exn : Type :=
| IntegrityError        (* sqlite3: a constraint failed *)
| OperationalError      (* sqlite3: database or disk is full *)
| AttributeError
| IndexError
| ClassNotFound         (* pygments.util *)
| OtherError.

Definition exn_eqb (a b : exn) : bool :=
  match a, b with
  | IntegrityError, IntegrityError
  | OperationalError, OperationalError
  | AttributeError, AttributeError
  | IndexError, IndexError
  | ClassNotFound, ClassNotFound
  | OtherError, OtherError => true
  | _, _ => false
  end.

(** A call of a stateless function: a value or an exception. *)
Inductive result (A : Type) : Type :=
| Ok (a : A)
| Err (e : exn).
Arguments Ok {A} a.
Arguments Err {A} e.

(** A call on a state [S]: it returns a value or raises, and in both cases
    leaves a state behind. *)
Inductive outcome (S A : Type) : Type :=
| Return (a : A) (s : S)
| Raise (e : exn) (s : S).
Arguments Return {S A} a s.
Arguments Raise {S A} e s.

Definition state_of {S A : Type} (o : outcome S A) : S :=
  match o with
  | Return _ s => s
  | Raise _ s => s
  end.

(** ** 1. Data model *)

Module Snippet.

Record t : Type := mk {
  id : option Z;
  title : pyval;
  code : pyval;
  language : pyval;
  tags : pyval;
  description : pyval
}.

(** [Snippet.__init__]: the arguments are stored as they come. *)
Definition init (title code language tags description : pyval)
    (id : option Z) : t :=
  mk id title code language tags description.

(** The defaults of [__init__]. *)
Definition default_language : pyval := PyStr "text".
Definition default_tags : pyval := PyStr "".
Definition default_description : pyval := PyStr "".

(** [Snippet(title, code)]. *)
Definition init2 (title code : pyval) : t :=
  init title code default_language default_tags default_description None.

Definition to_tuple (s : t) : pyval * pyval * pyval * pyval * pyval :=
  (title s, code s, language s, tags s, description s).

End Snippet.

(** ** The table [snippets] *)

Inductive sqlval : Type :=
| SqlNull
| SqlText (s : string).

(** sqlite3's adapters between Python objects and SQL values. *)
Definition bind_param (v : pyval) : sqlval :=
  match v with
  | PyNone => SqlNull
  | PyStr s => SqlText s
  end.

Definition fetch_value (v : sqlval) : pyval :=
  match v with
  | SqlNull => PyNone
  | SqlText s => PyStr s
  end.

Record row : Type := mk_row {
  row_id : Z;
  row_title : sqlval;
  row_code : sqlval;
  row_language : sqlval;
  row_tags : sqlval;
  row_description : sqlval
}.

(** The rows of the table, in rowid order. *)
Definition database : Type := list row.

Definition rowids (db : database) : list Z := map row_id db.

Definition MAX_ROWID : Z := 9223372036854775807.

Definition max_rowid (db : database) : option Z :=
  fold_right
    (fun r acc => match acc with
                  | None => Some (row_id r)
                  | Some m => Some (Z.max (row_id r) m)
                  end)
    None db.

Definition rowid_used (db : database) (n : Z) : bool :=
  existsb (Z.eqb n) (rowids db).

(** The rowid of an insert that names none; [candidates] are the rowids the
    engine draws when the largest one is taken. *)
Definition new_rowid (candidates : list Z) (db : database) : option Z :=
  match max_rowid db with
  | None => Some 1
  | Some m =>
      if m <? MAX_ROWID then Some (m + 1)
      else find (fun c => (0 <? c) && (c <=? MAX_ROWID)
                          && negb (rowid_used db c)) candidates
  end.

(** The cases in which the rowid does not depend on the random draw. *)
Definition rowid_available (db : database) : Prop :=
  match max_rowid db with
  | None => True
  | Some m => m < MAX_ROWID
  end.

Fixpoint insert_row (r : row) (db : database) : database :=
  match db with
  | [] => [r]
  | x :: rest =>
      if row_id r <? row_id x then r :: db else x :: insert_row r rest
  end.

Definition is_null (v : sqlval) : bool :=
  match v with
  | SqlNull => true
  | SqlText _ => false
  end.

(** [INSERT INTO snippets (title, code, language, tags, description)
    VALUES (?, ?, ?, ?, ?)]: the rowid is computed first, then the
    [NOT NULL] columns are checked. *)
Definition sql_insert (params : pyval * pyval * pyval * pyval * pyval)
    (candidates : list Z) (db : database) : result database :=
  let '(title, code, language, tags, description) := params in
  match new_rowid candidates db with
  | None => Err OperationalError
  | Some n =>
      if is_null (bind_param title) || is_null (bind_param code)
      then Err IntegrityError
      else Ok (insert_row
                 (mk_row n (bind_param title) (bind_param code)
                    (bind_param language) (bind_param tags)
                    (bind_param description)) db)
  end.

(** [SELECT * FROM snippets] followed by [fetchall()]. *)
Definition sql_select_all (db : database) : list row := db.

(** [DELETE FROM snippets WHERE id=?]: a NULL parameter equals no id. *)
Definition sql_delete (id : option Z) (db : database) : database :=
  match id with
  | None => db
  | Some n => filter (fun r => negb (row_id r =? n)) db
  end.

(** ** class SnippetDatabase *)

(** [CREATE TABLE IF NOT EXISTS snippets]: a new file has an empty table, an
    existing table is kept. *)
Definition create_table (file : option database) : database :=
  match file with
  | None => []
  | Some db => db
  end.

Definition add_snippet (snippet : Snippet.t) (candidates : list Z)
    (db : database) : outcome database unit :=
  match sql_insert (Snippet.to_tuple snippet) candidates db with
  | Ok db' => Return tt db'
  | Err e => Raise e db
  end.

Definition get_all_snippets (db : database) : list Snippet.t :=
  map (fun r => Snippet.mk (Some (row_id r)) (fetch_value (row_title r))
                  (fetch_value (row_code r)) (fetch_value (row_language r))
                  (fetch_value (row_tags r)) (fetch_value (row_description r)))
      (sql_select_all db).

(** The statement and the commit of [delete_snippet], on the store alone. *)
Definition delete_by_id (id : option Z) (db : database)
  : outcome database unit :=
  Return tt (sql_delete id db).

(** A run of the store: the inserts and deletes that reach it. *)
Inductive store_op : Type :=
| OpAdd (snippet : Snippet.t) (candidates : list Z)
| OpDelete (id : option Z).

Definition exec_op (o : store_op) (db : database) : outcome database unit :=
  match o with
  | OpAdd s c => add_snippet s c db
  | OpDelete i => delete_by_id i db
  end.

(** The id given by the store to the row of an operation, if it inserts
    one (what sqlite3 reports as [lastrowid]). *)
Definition assigned_id (o : store_op) (db : database) : option Z :=
  match o with
  | OpAdd s c =>
      match add_snippet s c db with
      | Return _ _ => new_rowid c db
      | Raise _ _ => None
      end
  | OpDelete _ => None
  end.

Fixpoint run_ops (ops : list store_op) (db : database) : database :=
  match ops with
  | [] => db
  | o :: rest => run_ops rest (state_of (exec_op o db))
  end.

(** For every insert of the run: the table before it, the id it was given,
    the table after it. *)
Fixpoint assignments (ops : list store_op) (db : database)
  : list (database * Z * database) :=
  match ops with
  | [] => []
  | o :: rest =>
      let db' := state_of (exec_op o db) in
      match assigned_id o db with
      | Some n => (db, n, db') :: assignments rest db'
      | None => assignments rest db'
      end
  end.

Fixpoint strictly_increasing (l : list Z) : bool :=
  match l with
  | a :: ((b :: _) as rest) => (a <? b) && strictly_increasing rest
  | _ => true
  end.

(** ** 2. Syntax highlighting *)

Section Pygments.

(** Pygments is taken as given: lexers, the two ways to find one, the
    formatter of [HtmlFormatter(style='default', full=False)] and
    [highlight]. Each call either returns or raises. *)
Variables lexer formatter : Type.
Variable get_lexer_by_name : pyval -> result lexer.
Variable guess_lexer : pyval -> result lexer.
Variable HtmlFormatter : result formatter.
Variable highlight : pyval -> lexer -> formatter -> result string.

(** The lexer chosen by the two nested [try] blocks. Every exception of
    the model derives from [Exception], so both handlers catch all of
    them; the lookup of ['text'] is inside no [try]. *)
Definition resolve_lexer (code language : pyval) : result lexer :=
  match get_lexer_by_name language with
  | Ok lx => Ok lx
  | Err _ =>
      match guess_lexer code with
      | Ok lx => Ok lx
      | Err _ => get_lexer_by_name (PyStr "text")
      end
  end.

Definition highlight_code_html (code language : pyval) : result string :=
  match resolve_lexer code language with
  | Err e => Err e
  | Ok lx =>
      match HtmlFormatter with
      | Err e => Err e
      | Ok fmt => highlight code lx fmt
      end
  end.

(** How many handlers ran before the lexer was found. *)
Definition fallbacks (code language : pyval) : nat :=
  match get_lexer_by_name language with
  | Ok _ => 0%nat
  | Err _ =>
      match guess_lexer code with
      | Ok _ => 1%nat
      | Err _ => 2%nat
      end
  end.

End Pygments.

(** ** 3. The Tkinter controller *)

(** *** Widgets *)

Inductive widget_state : Type := NORMAL | DISABLED.

(** A text widget: a disabled one ignores [insert] and [delete]. *)
Record Text : Type := mk_text {
  text_content : string;
  text_state : widget_state
}.

Definition text_config (state : widget_state) (w : Text) : Text :=
  mk_text (text_content w) state.

Definition text_delete_all (w : Text) : Text :=
  match text_state w with
  | NORMAL => mk_text "" NORMAL
  | DISABLED => w
  end.

Definition text_insert_end (s : string) (w : Text) : Text :=
  match text_state w with
  | NORMAL => mk_text (text_content w ++ s) NORMAL
  | DISABLED => w
  end.

(** A listbox: its lines and the tuple returned by [curselection()]. *)
Record Listbox : Type := mk_listbox {
  lb_items : list string;
  curselection : list nat
}.

(** [delete(0, END)]: no line is left, hence no selected line. *)
Definition listbox_delete_all (lb : Listbox) : Listbox := mk_listbox [] [].

(** [insert(END, s)]. *)
Definition listbox_insert_end (s : string) (lb : Listbox) : Listbox :=
  mk_listbox (lb_items lb ++ [s]) (curselection lb).

(** The user clicks on line [i]; a click below the last line selects
    nothing new. *)
Definition listbox_click (i : nat) (lb : Listbox) : Listbox :=
  if (i <? List.length (lb_items lb))%nat then mk_listbox (lb_items lb) [i]
  else lb.

(** *** Dialogs and the user *)

Inductive dialog : Type :=
| AskString (title prompt : string) (initialvalue : option string)
| ShowInfo (title message : string)
| ShowError (title message : string)
| AskYesNo (title message : string).

Definition is_prompt (d : dialog) : bool :=
  match d with
  | AskString _ _ _ => true
  | _ => false
  end.

(** The user, as the answers given to the dialogs: to [askstring] for a
    prompt and a pre-filled value, [None] for Cancel and the text of the
    entry for OK; to [askyesno] for a message. *)
Record user : Type := mk_user {
  answer_string : string -> option string -> pyval;
  answer_yesno : string -> bool
}.

(** *** The application object *)

Record app : Type := mk_app {
  db : database;
  snippets : list Snippet.t;
  snippet_listbox : Listbox;
  code_display : Text;
  dialogs : list dialog
}.

(** Methods are state transformers over [app] that may raise. *)
Definition M (A : Type) : Type := app -> outcome app A.

Definition ret {A : Type} (a : A) : M A := fun st => Return a st.

Definition bind {A B : Type} (m : M A) (k : A -> M B) : M B :=
  fun st =>
    match m st with
    | Return a st' => k a st'
    | Raise e st' => Raise e st'
    end.

Definition raise {A : Type} (e : exn) : M A := fun st => Raise e st.

(** [try: body except E: handler]. *)
Definition try_except {A : Type} (body : M A) (E : exn) (handler : M A)
  : M A :=
  fun st =>
    match body st with
    | Return a st' => Return a st'
    | Raise e st' => if exn_eqb e E then handler st' else Raise e st'
    end.

Definition get : M app := fun st => Return st st.

Declare Scope app_scope.
Delimit Scope app_scope with app.
Notation "x <- m ;; k" := (bind m (fun x => k))
  (at level 61, m at next level, right associativity) : app_scope.
Notation "m ;; k" := (bind m (fun _ => k))
  (at level 61, right associativity) : app_scope.
Open Scope app_scope.

Definition set_snippets (l : list Snippet.t) : M unit :=
  fun st => Return tt (mk_app (db st) l (snippet_listbox st)
                         (code_display st) (dialogs st)).

Definition on_listbox (f : Listbox -> Listbox) : M unit :=
  fun st => Return tt (mk_app (db st) (snippets st) (f (snippet_listbox st))
                         (code_display st) (dialogs st)).

Definition on_code_display (f : Text -> Text) : M unit :=
  fun st => Return tt (mk_app (db st) (snippets st) (snippet_listbox st)
                         (f (code_display st)) (dialogs st)).

Definition open_dialog (d : dialog) : M unit :=
  fun st => Return tt (mk_app (db st) (snippets st) (snippet_listbox st)
                         (code_display st) (dialogs st ++ [d])).

(** A call on [self.db]. *)
Definition on_db {A : Type} (f : database -> outcome database A) : M A :=
  fun st =>
    let with_db d := mk_app d (snippets st) (snippet_listbox st)
                       (code_display st) (dialogs st) in
    match f (db st) with
    | Return a d => Return a (with_db d)
    | Raise e d => Raise e (with_db d)
    end.

Definition askstring (u : user) (title prompt : string)
    (initialvalue : option string) : M pyval :=
  open_dialog (AskString title prompt initialvalue) ;;
  ret (answer_string u prompt initialvalue).

Definition askyesno (u : user) (title message : string) : M bool :=
  open_dialog (AskYesNo title message) ;;
  ret (answer_yesno u message).

Definition showinfo (title message : string) : M unit :=
  open_dialog (ShowInfo title message).

Definition showerror (title message : string) : M unit :=
  open_dialog (ShowError title message).

(** [l[i]] for an index that is not negative. *)
Definition py_index {A : Type} (l : list A) (i : nat) : M A :=
  match nth_error l i with
  | Some a => ret a
  | None => raise IndexError
  end.

(** [for x in l: body]. *)
Fixpoint for_each {A : Type} (l : list A) (body : A -> M unit) : M unit :=
  match l with
  | [] => ret tt
  | x :: rest => body x ;; for_each rest body
  end.

Definition newline : string := String (ascii_of_nat 10) EmptyString.

(** The prompts of the add flow. *)
Definition title_prompt : string := "Enter Snippet Title:".
Definition language_prompt : string := "Enter Language (e.g., python, html):".
Definition code_prompt : string := "Paste Code Snippet here:".
Definition tags_prompt : string := "Enter Tags (comma separated):".
Definition description_prompt : string := "Enter Description:".

Section SnippetManagerApp.

(** [str.upper], taken as given. *)
Variable upper : string -> string.

(** [v.upper()]: [None] has no such method. *)
Definition py_upper (v : pyval) : M string :=
  match v with
  | PyStr s => ret (upper s)
  | PyNone => raise AttributeError
  end.

(** The line of a snippet in the listbox. *)
Definition label (up : string) (snippet : Snippet.t) : string :=
  "[" ++ up ++ "] " ++ py_format (Snippet.title snippet).

(** The body of the loop of [load_snippets]. *)
Definition insert_line (snippet : Snippet.t) : M unit :=
  up <- py_upper (Snippet.language snippet) ;;
  on_listbox (listbox_insert_end (label up snippet)).

Definition load_snippets : M unit :=
  st <- get ;;
  set_snippets (get_all_snippets (db st)) ;;
  on_listbox listbox_delete_all ;;
  st <- get ;;
  for_each (snippets st) insert_line.

(** The block shown in the detail pane. *)
Definition details (snippet : Snippet.t) : string :=
  "Title: " ++ py_format (Snippet.title snippet) ++ newline
  ++ "Language: " ++ py_format (Snippet.language snippet) ++ newline
  ++ "Tags: " ++ py_format (Snippet.tags snippet) ++ newline
  ++ "Description:" ++ newline
  ++ py_format (Snippet.description snippet) ++ newline ++ newline
  ++ "--- CODE ---" ++ newline
  ++ py_format (Snippet.code snippet).

(** The body of the [try] of [show_snippet_details]. *)
Definition show_snippet_details_body : M unit :=
  st <- get ;;
  selected_index <- py_index (curselection (snippet_listbox st)) 0 ;;
  snippet <- py_index (snippets st) selected_index ;;
  on_code_display (text_config NORMAL) ;;
  on_code_display text_delete_all ;;
  on_code_display (text_insert_end (details snippet)) ;;
  on_code_display (text_config DISABLED).

Definition show_snippet_details : M unit :=
  try_except show_snippet_details_body IndexError (ret tt).

(** [candidates] are the rowids the engine may draw during the insert. *)
Definition add_new_snippet (u : user) (candidates : list Z) : M unit :=
  title <- askstring u "Input" title_prompt None ;;
  if py_not title then ret tt else
  language <- askstring u "Input" language_prompt (Some "python") ;;
  let language := if py_not language then PyStr "text" else language in
  code <- askstring u "Input" code_prompt None ;;
  if py_not code then ret tt else
  tags <- askstring u "Input" tags_prompt None ;;
  description <- askstring u "Input" description_prompt None ;;
  let new_snippet :=
    Snippet.init title code language tags description None in
  on_db (add_snippet new_snippet candidates) ;;
  load_snippets ;;
  showinfo "Success"
    ("Snippet '" ++ py_format title ++ "' added successfully!").

(** The body of the [try] of [delete_snippet]. *)
Definition delete_snippet_body (u : user) : M unit :=
  st <- get ;;
  selected_index <- py_index (curselection (snippet_listbox st)) 0 ;;
  snippet <- py_index (snippets st) selected_index ;;
  confirmed <- askyesno u "Confirm Delete"
    ("Are you sure you want to delete '"
     ++ py_format (Snippet.title snippet) ++ "'?") ;;
  if confirmed then
    on_db (delete_by_id (Snippet.id snippet)) ;;
    load_snippets ;;
    on_code_display (text_config NORMAL) ;;
    on_code_display text_delete_all ;;
    on_code_display (text_config DISABLED)
  else ret tt.

Definition delete_snippet (u : user) : M unit :=
  try_except (delete_snippet_body u) IndexError
    (showerror "Error" "Please select a snippet to delete.").

(** [SnippetManagerApp.__init__] on the content of [snippets.db], if the
    file exists: the widgets are created empty, the detail pane disabled,
    and the list is loaded. *)
Definition app_init (file : option database) : outcome app unit :=
  load_snippets
    (mk_app (create_table file) [] (mk_listbox [] [])
       (mk_text "" DISABLED) []).

(** The user selects line [i]: the listbox records it and fires
    [<<ListboxSelect>>]. *)
Definition select (i : nat) : M unit :=
  on_listbox (listbox_click i) ;;
  show_snippet_details.

End SnippetManagerApp.

(** ** Properties the statements are about *)

(** No stored row has NULL in [language]. *)
Definition languages_present (d : database) : Prop :=
  Forall (fun r => is_null (row_language r) = false) d.

(** The visual list and the in-memory list are aligned: as many lines as
    snippets, and line [i] is the label of snippet [i]. *)
Definition aligned (upper : string -> string) (st : app) : Prop :=
  List.length (lb_items (snippet_listbox st)) = List.length (snippets st)
  /\ forall i snippet,
       nth_error (snippets st) i = Some snippet ->
       exists lang,
         Snippet.language snippet = PyStr lang
         /\ nth_error (lb_items (snippet_listbox st)) i
            = Some ("[" ++ upper lang ++ "] "
                    ++ py_format (Snippet.title snippet)).

(** The dialogs opened by a call: what it appended to the log. *)
Definition opened (before after : app) (ds : list dialog) : Prop :=
  dialogs after = (dialogs before ++ ds)%list.

(** The snippet has a string in [language]. *)
Definition has_language (snippet : Snippet.t) : Prop :=
  exists lang, Snippet.language snippet = PyStr lang.

(** The line that [load_snippets] writes for a snippet read from the
    table. *)
Definition line_of (upper : string -> string) (snippet : Snippet.t)
  : string :=
  "[" ++ upper (py_format (Snippet.language snippet)) ++ "] "
  ++ py_format (Snippet.title snippet).

(** The state after a refresh that went through. *)
Definition loaded (upper : string -> string) (st : app) : app :=
  mk_app (db st) (get_all_snippets (db st))
    (mk_listbox (map (line_of upper) (get_all_snippets (db st))) [])
    (code_display st) (dialogs st).

Definition with_dialogs (ds : list dialog) (st : app) : app :=
  mk_app (db st) (snippets st) (snippet_listbox st) (code_display st)
    (dialogs st ++ ds).

Definition with_db (d : database) (st : app) : app :=
  mk_app d (snippets st) (snippet_listbox st) (code_display st)
    (dialogs st).

(** The dialogs of an add flow that reaches the insert. *)
Definition five_prompts : list dialog :=
  [AskString "Input" title_prompt None;
   AskString "Input" language_prompt (Some "python");
   AskString "Input" code_prompt None;
   AskString "Input" tags_prompt None;
   AskString "Input" description_prompt None].

(** The language that the add flow keeps for an answer. *)
Definition kept_language (answer : pyval) : pyval :=
  if py_not answer then PyStr "text" else answer.

(** The snippet that the add flow builds from the answers of a user. *)
Definition snippet_of_answers (u : user) : Snippet.t :=
  Snippet.init (answer_string u title_prompt None)
    (answer_string u code_prompt None)
    (kept_language (answer_string u language_prompt (Some "python")))
    (answer_string u tags_prompt None)
    (answer_string u description_prompt None) None.

(** The row that the insert of the add flow writes under rowid [n]. *)
Definition row_of_answers (u : user) (n : Z) : row :=
  mk_row n (bind_param (Snippet.title (snippet_of_answers u)))
    (bind_param (Snippet.code (snippet_of_answers u)))
    (bind_param (Snippet.language (snippet_of_answers u)))
    (bind_param (Snippet.tags (snippet_of_answers u)))
    (bind_param (Snippet.description (snippet_of_answers u))).

(** The rowid of the next insert, away from the last rowid. *)
Definition next_rowid (d : database) : Z :=
  match max_rowid d with
  | None => 1
  | Some m => m + 1
  end.

(** The confirmation of the add flow. *)
Definition success_dialog (u : user) : dialog :=
  ShowInfo "Success"
    ("Snippet '" ++ py_format (answer_string u title_prompt None)
     ++ "' added successfully!").

Definition no_selection_dialog : dialog :=
  ShowError "Error" "Please select a snippet to delete.".

(** The state in which a selection of line [i] leaves the application when
    [snippet] is shown. *)
Definition showing (i : nat) (snippet : Snippet.t) (st : app) : app :=
  mk_app (db st) (snippets st)
    (mk_listbox (lb_items (snippet_listbox st)) [i])
    (mk_text (details snippet) DISABLED) (dialogs st).

(** The question of [delete_snippet]. *)
Definition confirm_dialog (snippet : Snippet.t) : dialog :=
  AskYesNo "Confirm Delete"
    ("Are you sure you want to delete '"
     ++ py_format (Snippet.title snippet) ++ "'?").

(** The state after a confirmed delete of [snippet]. *)
Definition after_delete (upper : string -> string) (snippet : Snippet.t)
    (st : app) : app :=
  let st' := loaded upper
               (with_db (sql_delete (Snippet.id snippet) (db st))
                  (with_dialogs [confirm_dialog snippet] st)) in
  mk_app (db st') (snippets st') (snippet_listbox st') (mk_text "" DISABLED)
    (dialogs st').

(** *** The main loop *)

(** What the user does on the window. *)
Inductive gesture : Type :=
| AddNew (u : user) (candidates : list Z)
| Delete (u : user)
| Select (i : nat).

Definition handle (upper : string -> string) (g : gesture) : M unit :=
  match g with
  | AddNew u c => add_new_snippet upper u c
  | Delete u => delete_snippet upper u
  | Select i => select i
  end.

(** [mainloop()]: the callbacks run one after the other; an exception that
    leaves a callback is reported and the loop goes on from the state the
    callback left. *)
Fixpoint mainloop (upper : string -> string) (gs : list gesture) (st : app)
  : app :=
  match gs with
  | [] => st
  | g :: rest => mainloop upper rest (state_of (handle upper g st))
  end.

(** What holds of the application between two callbacks. *)
Definition consistent (upper : string -> string) (st : app) : Prop :=
  languages_present (db st) /\ aligned upper st.

(** *** The detail block, as the window is to show it *)

(** The text that stands for a field: the string itself, and [None] for a
    field that holds no string. *)
Definition shown_text (v : pyval) : string :=
  match v with
  | PyStr s => s
  | PyNone => "None"
  end.

(** The block of a snippet, line by line: the title, the language and the
    tags after their headings, the description under its heading, an empty
    line, and the code under its heading, lines being joined by a line
    feed. *)
Definition detail_block (snippet : Snippet.t) : string :=
  String.concat newline
    ["Title: " ++ shown_text (Snippet.title snippet);
     "Language: " ++ shown_text (Snippet.language snippet);
     "Tags: " ++ shown_text (Snippet.tags snippet);
     "Description:";
     shown_text (Snippet.description snippet);
     "";
     "--- CODE ---";
     shown_text (Snippet.code snippet)].

(** *** Further notions about the store and the window *)

(** The record that [get_all_snippets] builds for a row. *)
Definition record_of_row (r : row) : Snippet.t :=
  Snippet.mk (Some (row_id r)) (fetch_value (row_title r))
    (fetch_value (row_code r)) (fetch_value (row_language r))
    (fetch_value (row_tags r)) (fetch_value (row_description r)).

(** The record under which [snippet] is read back once stored with id
    [n]. *)
Definition stored_as (n : Z) (snippet : Snippet.t) : Snippet.t :=
  Snippet.mk (Some n) (Snippet.title snippet) (Snippet.code snippet)
    (Snippet.language snippet) (Snippet.tags snippet)
    (Snippet.description snippet).

(** The schema's constraints on a table: no NULL title, no NULL code. *)
Definition not_null (d : database) : Prop :=
  Forall (fun r => is_null (row_title r) = false
                   /\ is_null (row_code r) = false) d.

Definition nonempty_text (v : sqlval) : bool :=
  match v with
  | SqlText s => negb (String.eqb s "")
  | SqlNull => false
  end.

(** What the guards of the add dialog give: title, code and language are
    strings that are not empty. *)
Definition guarded (d : database) : Prop :=
  Forall (fun r => nonempty_text (row_title r) = true
                   /\ nonempty_text (row_code r) = true
                   /\ nonempty_text (row_language r) = true) d.

(** [l] without its element at position [i]. *)
Definition drop_at {A : Type} (i : nat) (l : list A) : list A :=
  firstn i l ++ skipn (S i) l.

Definition has_language_b (snippet : Snippet.t) : bool :=
  match Snippet.language snippet with
  | PyStr _ => true
  | PyNone => false
  end.

(** The snippets that come before the first one without a language. *)
Fixpoint labelled_prefix (l : list Snippet.t) : list Snippet.t :=
  match l with
  | [] => []
  | snippet :: rest =>
      if has_language_b snippet then snippet :: labelled_prefix rest
      else []
  end.

(** The state in which a refresh stops when it meets a snippet without a
    language. *)
Definition half_loaded (upper : string -> string) (st : app) : app :=
  mk_app (db st) (get_all_snippets (db st))
    (mk_listbox
       (map (line_of upper) (labelled_prefix (get_all_snippets (db st))))
       [])
    (code_display st) (dialogs st).

(** The in-memory list is what the store lists. *)
Definition synced (st : app) : Prop :=
  snippets st = get_all_snippets (db st).

(** The detail pane does not take input. *)
Definition read_only (st : app) : Prop :=
  text_state (code_display st) = DISABLED.

(** What holds of the running application between two callbacks. *)
Definition settled (upper : string -> string) (st : app) : Prop :=
  consistent upper st /\ synced st /\ read_only st
  /\ NoDup (rowids (db st)).

(** ** Concrete inputs *)

(** A small Pygments: two lexers known by name, no guess. *)
Definition toy_get_lexer_by_name (v : pyval) : result string :=
  match v with
  | PyStr s =>
      if String.eqb s "python" || String.eqb s "text" then Ok s
      else Err ClassNotFound
  | PyNone => Err ClassNotFound
  end.

Definition toy_guess_lexer (v : pyval) : result string := Err ClassNotFound.

Definition toy_highlight (code : pyval) (lx : string) (fmt : unit)
  : result string :=
  Ok ("<pre>" ++ py_format code ++ "</pre>").

(** [str.upper] on ASCII text. *)
Definition ascii_upper_char (c : ascii) : ascii :=
  let n := nat_of_ascii c in
  if ((97 <=? n) && (n <=? 122))%nat then ascii_of_nat (n - 32) else c.

Fixpoint ascii_upper (s : string) : string :=
  match s with
  | EmptyString => EmptyString
  | String c rest => String (ascii_upper_char c) (ascii_upper rest)
  end.

Definition hello : Snippet.t :=
  Snippet.init (PyStr "Hello") (PyStr "print('hi')") (PyStr "python")
    (PyStr "demo") (PyStr "greeting") None.

Definition untitled : Snippet.t :=
  Snippet.init (PyStr "") (PyStr "") (PyStr "text") (PyStr "") (PyStr "")
    None.

Definition nameless : Snippet.t :=
  Snippet.init PyNone (PyStr "x = 1") (PyStr "python") PyNone PyNone None.

Definition hello_row (n : Z) : row :=
  mk_row n (SqlText "Hello") (SqlText "print('hi')") (SqlText "python")
    (SqlText "demo") (SqlText "greeting").

(** A user who fills the five prompts of the add flow. *)
Definition fills (title language code tags description : pyval) : user :=
  mk_user
    (fun prompt _ =>
       if String.eqb prompt title_prompt then title
       else if String.eqb prompt language_prompt then language
       else if String.eqb prompt code_prompt then code
       else if String.eqb prompt tags_prompt then tags
       else if String.eqb prompt description_prompt then description
       else PyNone)
    (fun _ => true).

Definition empty_app : app :=
  mk_app [] [] (mk_listbox [] []) (mk_text "" DISABLED) [].

(** The application before its first refresh, on a file with one row. *)
Definition one_hello : app :=
  mk_app [hello_row 1] [] (mk_listbox [] []) (mk_text "" DISABLED) [].

(** Cancel at the first prompt. *)
Definition cancels_title : user :=
  fills PyNone (PyStr "python") (PyStr "print('hi')") PyNone PyNone.

(** OK on an empty entry at the code prompt. *)
Definition leaves_code_blank : user :=
  fills (PyStr "Hello") (PyStr "python") (PyStr "") PyNone PyNone.

(** Cancel at the language, tags and description prompts. *)
Definition cancels_optional : user :=
  fills (PyStr "Hello") PyNone (PyStr "print('hi')") PyNone PyNone.

(** The snippet of the scenarios of the specification, and another one. *)
Definition fills_hello : user :=
  fills (PyStr "Hello") (PyStr "python") (PyStr "print('hi')")
    (PyStr "demo") (PyStr "greeting").

Definition fills_other : user :=
  fills (PyStr "Loop") (PyStr "c") (PyStr "for(;;);") (PyStr "") PyNone.

(** OK on an empty entry at the tags and description prompts. *)
Definition leaves_optional_blank : user :=
  fills (PyStr "Hello") (PyStr "python") (PyStr "print('hi')") (PyStr "")
    (PyStr "").

(** A table with a row that has no language. *)
Definition table_with_null_language : database :=
  [hello_row 1;
   mk_row 2 (SqlText "Bare") (SqlText "pass") SqlNull SqlNull SqlNull;
   hello_row 3].

(** A user who declines every question. *)
Definition says_no : user :=
  mk_user (fun _ _ => PyNone) (fun _ => false).

(** One stored snippet, listed, its line selected, an old text in an
    editable detail pane. *)
Definition hello_selected : app :=
  mk_app [hello_row 1] (get_all_snippets [hello_row 1])
    (mk_listbox ["[PYTHON] Hello"] [0%nat]) (mk_text "old text" NORMAL) [].

(** A selection that points below the in-memory list. *)
Definition stale_selection : app :=
  mk_app [hello_row 1] (get_all_snippets [hello_row 1])
    (mk_listbox ["[PYTHON] Hello"; "[C] Gone"] [1%nat])
    (mk_text "" DISABLED) [].

(** The application on a table with a row that has no language, as
    a callback finds it. *)
Definition null_language_app : app :=
  mk_app table_with_null_language
    (get_all_snippets table_with_null_language)
    (mk_listbox ["[PYTHON] Hello"] []) (mk_text "" DISABLED) [].

(** A file with three different rows, before the first refresh. *)
Definition three_rows : app :=
  mk_app
    [hello_row 1;
     mk_row 2 (SqlText "Loop") (SqlText "for(;;);") (SqlText "c") SqlNull
       SqlNull;
     mk_row 5 (SqlText "Page") (SqlText "<p>hi</p>") (SqlText "html")
       (SqlText "web,demo") (SqlText "")]
    [] (mk_listbox [] []) (mk_text "" DISABLED) [].

(** Three stored snippets, listed, the third line selected, an old text in
    an editable detail pane. *)
Definition page_selected : app :=
  mk_app (db three_rows) (get_all_snippets (db three_rows))
    (mk_listbox ["[PYTHON] Hello"; "[C] Loop"; "[HTML] Page"] [2%nat])
    (mk_text "old text" NORMAL) [].

(** * Proofs *)

(** ** The store *)

Section StoreFacts.

Lemma bind_fetch (v : pyval) : fetch_value (bind_param v) = v.
Proof. destruct v; reflexivity. Qed.

Lemma max_rowid_empty (d : database) : max_rowid d = None -> d = [].
Proof.
  destruct d as [|r d]; [reflexivity|].
  cbn. destruct (fold_right _ None d); discriminate.
Qed.

Lemma max_rowid_bound (d : database) (m : Z) :
  max_rowid d = Some m -> forall n, In n (rowids d) -> n <= m.
Proof.
  revert m. induction d as [|r d IH]; intros m Hm n Hn; [contradiction|].
  cbn in Hm. fold (max_rowid d) in Hm.
  destruct (max_rowid d) as [m'|] eqn:E.
  - injection Hm as <-. destruct Hn as [<-|Hn].
    + lia.
    + specialize (IH m' eq_refl n Hn). lia.
  - injection Hm as <-. apply max_rowid_empty in E. subst d.
    destruct Hn as [<-|[]]. lia.
Qed.

Lemma rowid_used_In (d : database) (n : Z) :
  rowid_used d n = true <-> In n (rowids d).
Proof.
  unfold rowid_used. rewrite existsb_exists. split.
  - intros [x [Hx Heq]]. apply Z.eqb_eq in Heq. now subst.
  - intros H. exists n. split; [assumption | apply Z.eqb_refl].
Qed.

(** The rowid of an insert is never one that is in use. *)
Lemma new_rowid_fresh (c : list Z) (d : database) (n : Z) :
  new_rowid c d = Some n -> ~ In n (rowids d).
Proof.
  unfold new_rowid. intros H Hin.
  destruct (max_rowid d) as [m|] eqn:E.
  - destruct (m <? MAX_ROWID) eqn:Hlt.
    + injection H as <-.
      pose proof (max_rowid_bound d m E _ Hin). lia.
    + apply find_some in H. destruct H as [_ H].
      apply andb_prop in H. destruct H as [_ H].
      apply negb_true_iff in H.
      apply rowid_used_In in Hin. congruence.
  - apply max_rowid_empty in E. subst d. contradiction.
Qed.

(** Away from the last rowid, it is above all of those in use. *)
Lemma new_rowid_above (c : list Z) (d : database) (n : Z) :
  rowid_available d -> new_rowid c d = Some n ->
  forall m, In m (rowids d) -> m < n.
Proof.
  unfold rowid_available, new_rowid. intros Hav H m Hin.
  destruct (max_rowid d) as [k|] eqn:E.
  - apply Z.ltb_lt in Hav. rewrite Hav in H. injection H as <-.
    pose proof (max_rowid_bound d k E _ Hin). lia.
  - apply max_rowid_empty in E. subst d. contradiction.
Qed.

Lemma new_rowid_next (c : list Z) (d : database) :
  rowid_available d ->
  new_rowid c d = Some (match max_rowid d with
                        | None => 1
                        | Some m => m + 1
                        end).
Proof.
  unfold rowid_available, new_rowid. intros Hav.
  destruct (max_rowid d) as [k|]; [|reflexivity].
  apply Z.ltb_lt in Hav. now rewrite Hav.
Qed.

Lemma In_insert_row (r x : row) (d : database) :
  In x (insert_row r d) <-> x = r \/ In x d.
Proof.
  induction d as [|y d IH]; cbn.
  - intuition.
  - destruct (row_id r <? row_id y); cbn; rewrite ?IH; intuition.
Qed.

Lemma length_insert_row (r : row) (d : database) :
  List.length (insert_row r d) = S (List.length d).
Proof.
  induction d as [|y d IH]; cbn; [reflexivity|].
  destruct (row_id r <? row_id y); cbn; [reflexivity|].
  now rewrite IH.
Qed.

Lemma rowids_insert_row (r : row) (d : database) (n : Z) :
  In n (rowids (insert_row r d)) <-> n = row_id r \/ In n (rowids d).
Proof.
  unfold rowids. rewrite !in_map_iff. split.
  - intros [x [Hx Hin]]. apply In_insert_row in Hin.
    destruct Hin as [->|Hin]; [now left | right; eauto].
  - intros [->|[x [Hx Hin]]].
    + exists r. split; [reflexivity | apply In_insert_row; now left].
    + exists x. split; [assumption | apply In_insert_row; now right].
Qed.

Lemma NoDup_insert_row (r : row) (d : database) :
  ~ In (row_id r) (rowids d) -> NoDup (rowids d) ->
  NoDup (rowids (insert_row r d)).
Proof.
  induction d as [|y d IH]; cbn; intros Hnin Hnd.
  - constructor; [intros [] | constructor].
  - destruct (row_id r <? row_id y); cbn.
    + constructor; assumption.
    + inversion Hnd as [|? ? Hy Hd]; subst.
      constructor.
      * fold (rowids (insert_row r d)). rewrite rowids_insert_row.
        intros [Heq|Hin]; [apply Hnin; now left | contradiction].
      * apply IH; [intros H; apply Hnin; now right | assumption].
Qed.

Lemma NoDup_sql_delete (i : option Z) (d : database) :
  NoDup (rowids d) -> NoDup (rowids (sql_delete i d)).
Proof.
  destruct i as [n|]; [|trivial]. cbn.
  induction d as [|y d IH]; cbn; intros Hnd; [assumption|].
  inversion Hnd as [|? ? Hy Hd]; subst.
  destruct (negb (row_id y =? n)); cbn; [|now apply IH].
  constructor; [|now apply IH].
  intros Hin. apply Hy. unfold rowids in *.
  apply in_map_iff in Hin. destruct Hin as [x [Hx Hin]].
  apply filter_In in Hin. apply in_map_iff. exists x. tauto.
Qed.

(** Deleting an id that no row has keeps every row. *)
Lemma sql_delete_absent (n : Z) (d : database) :
  ~ In n (rowids d) -> sql_delete (Some n) d = d.
Proof.
  cbn. induction d as [|y d IH]; cbn; intros Hnin; [reflexivity|].
  destruct (Z.eqb_spec (row_id y) n) as [Heq|Hne]; cbn.
  - exfalso. apply Hnin. now left.
  - f_equal. apply IH. intros H. apply Hnin. now right.
Qed.

(** What a successful [add_snippet] did. *)
Lemma add_snippet_returns (s : Snippet.t) (c : list Z) (d d' : database) :
  add_snippet s c d = Return tt d' ->
  exists n t k,
    new_rowid c d = Some n
    /\ Snippet.title s = PyStr t /\ Snippet.code s = PyStr k
    /\ d' = insert_row
              (mk_row n (SqlText t) (SqlText k)
                 (bind_param (Snippet.language s))
                 (bind_param (Snippet.tags s))
                 (bind_param (Snippet.description s))) d.
Proof.
  unfold add_snippet, sql_insert, Snippet.to_tuple.
  destruct (new_rowid c d) as [n|]; [|discriminate].
  destruct (Snippet.title s) as [|t]; [discriminate|].
  destruct (Snippet.code s) as [|k]; [discriminate|].
  cbn. intros H. injection H as <-. now exists n, t, k.
Qed.

(** When it succeeds. *)
Lemma add_snippet_succeeds (s : Snippet.t) (c : list Z) (d : database)
    (n : Z) (t k : string) :
  new_rowid c d = Some n ->
  Snippet.title s = PyStr t -> Snippet.code s = PyStr k ->
  add_snippet s c d
  = Return tt (insert_row
                 (mk_row n (SqlText t) (SqlText k)
                    (bind_param (Snippet.language s))
                    (bind_param (Snippet.tags s))
                    (bind_param (Snippet.description s))) d).
Proof.
  unfold add_snippet, sql_insert, Snippet.to_tuple.
  intros -> -> ->. reflexivity.
Qed.

(** A failed [add_snippet] leaves the table as it was. *)
Lemma add_snippet_raises (s : Snippet.t) (c : list Z) (d d' : database)
    (e : exn) :
  add_snippet s c d = Raise e d' -> d' = d.
Proof.
  unfold add_snippet. destruct (sql_insert _ c d); [discriminate|].
  intros H. now injection H.
Qed.

Lemma get_all_snippets_In (d : database) (r : row) :
  In r d ->
  In (Snippet.mk (Some (row_id r)) (fetch_value (row_title r))
        (fetch_value (row_code r)) (fetch_value (row_language r))
        (fetch_value (row_tags r)) (fetch_value (row_description r)))
     (get_all_snippets d).
Proof.
  intros H. unfold get_all_snippets, sql_select_all.
  apply in_map_iff. exists r. split; [reflexivity | assumption].
Qed.

Lemma get_all_snippets_ids (d : database) :
  map Snippet.id (get_all_snippets d) = map Some (rowids d).
Proof.
  unfold get_all_snippets, sql_select_all, rowids.
  rewrite !map_map. reflexivity.
Qed.

End StoreFacts.

Lemma exec_op_NoDup (o : store_op) (d : database) :
  NoDup (rowids d) -> NoDup (rowids (state_of (exec_op o d))).
Proof.
  intros Hnd. destruct o as [s c|i]; cbn.
  - destruct (add_snippet s c d) as [[] d'|e d'] eqn:E; cbn.
    + apply add_snippet_returns in E.
      destruct E as (n & t & k & Hn & _ & _ & ->).
      apply NoDup_insert_row; [|assumption].
      cbn. now apply new_rowid_fresh with (c := c).
    + apply add_snippet_raises in E. now subst.
  - now apply NoDup_sql_delete.
Qed.

Lemma assigned_id_In (o : store_op) (d : database) (n : Z) :
  assigned_id o d = Some n ->
  exists s c, o = OpAdd s c /\ new_rowid c d = Some n
              /\ In n (rowids (state_of (exec_op o d))).
Proof.
  destruct o as [s c|i]; cbn; [|discriminate].
  destruct (add_snippet s c d) as [[] d'|e d'] eqn:E; [|discriminate].
  intros Hn. exists s, c. repeat split; [assumption|].
  apply add_snippet_returns in E.
  destruct E as (n' & t & k & Hn' & _ & _ & ->). cbn.
  rewrite rowids_insert_row. left. cbn. congruence.
Qed.

(** C1. Round trip through the store: when a snippet whose title and code
    are non-empty strings is added, [get_all_snippets] afterwards contains a
    record with the same title, code, language, tags and description and
    with an id, and that id was borne by no record before. The insert does
    succeed whenever the largest rowid is not the last one. *)
Theorem add_then_list_round_trip
    (s : Snippet.t) (c : list Z) (d : database) (t k : string) :
  Snippet.title s = PyStr t -> t <> "" ->
  Snippet.code s = PyStr k -> k <> "" ->
  (forall d',
      add_snippet s c d = Return tt d' ->
      exists n,
        In (Snippet.mk (Some n) (Snippet.title s) (Snippet.code s)
              (Snippet.language s) (Snippet.tags s) (Snippet.description s))
           (get_all_snippets d')
        /\ ~ In (Some n) (map Snippet.id (get_all_snippets d)))
  /\ (rowid_available d -> exists d', add_snippet s c d = Return tt d').
Proof.
  intros Ht _ Hk _. split.
  - intros d' Hadd. apply add_snippet_returns in Hadd.
    destruct Hadd as (n & t' & k' & Hn & Ht' & Hk' & ->).
    exists n. split.
    + rewrite Ht', Hk'.
      match goal with
      | |- In _ (get_all_snippets (insert_row ?r d)) =>
          pose proof (get_all_snippets_In (insert_row r d) r) as Hin
      end.
      cbn in Hin. rewrite !bind_fetch in Hin.
      apply Hin, In_insert_row. now left.
    + rewrite get_all_snippets_ids, in_map_iff.
      intros [m [Hm Hin]]. injection Hm as ->.
      now apply new_rowid_fresh in Hn.
  - intros Hav. eexists.
    eapply add_snippet_succeeds; eauto using new_rowid_next.
Qed.

Lemma add_then_list_round_trip_witness :
  exists n,
    In (Snippet.mk (Some n) (PyStr "Hello") (PyStr "print('hi')")
          (PyStr "python") (PyStr "demo") (PyStr "greeting"))
       (get_all_snippets (state_of (add_snippet hello [] [])))
    /\ ~ In (Some n) (map Snippet.id (get_all_snippets [])).
Proof.
  refine (proj1 (add_then_list_round_trip hello [] [] "Hello" "print('hi')"
                   eq_refl _ eq_refl _) _ eq_refl); discriminate.
Defined.

(** C2, as stated, fails: a snippet whose title and code are the empty
    string is inserted. *)
Lemma empty_title_and_code_are_stored :
  Snippet.title untitled = PyStr "" /\ Snippet.code untitled = PyStr ""
  /\ add_snippet untitled [] []
     = Return tt [mk_row 1 (SqlText "") (SqlText "") (SqlText "text")
                    (SqlText "") (SqlText "")].
Proof. repeat split. Qed.

(** C2, amended. The [NOT NULL] constraints reject [None], not the empty
    string: [add_snippet] raises and leaves the table as it was when the
    title or the code is [None]; it inserts one row when both are strings,
    empty or not (the largest rowid not being the last one); and
    [Snippet.__init__] keeps whatever it is given. *)
Theorem not_null_rejects_none_only
    (s : Snippet.t) (c : list Z) (d : database) :
  (Snippet.title s = PyNone \/ Snippet.code s = PyNone ->
   exists e, add_snippet s c d = Raise e d
             /\ (rowid_available d -> e = IntegrityError))
  /\ (forall t k,
         Snippet.title s = PyStr t -> Snippet.code s = PyStr k ->
         rowid_available d ->
         exists d', add_snippet s c d = Return tt d'
                    /\ List.length d' = S (List.length d))
  /\ (forall t k l g ds i,
         Snippet.init t k l g ds i = Snippet.mk i t k l g ds).
Proof.
  split; [|split].
  - intros Hnull. unfold add_snippet, sql_insert, Snippet.to_tuple.
    destruct (new_rowid c d) as [n|] eqn:Hn.
    + exists IntegrityError.
      destruct Hnull as [-> | ->]; cbn; [now split|].
      rewrite orb_true_r. now split.
    + exists OperationalError. split; [reflexivity|].
      intros Hav. rewrite (new_rowid_next c d Hav) in Hn. discriminate.
  - intros t k Ht Hk Hav. eexists. split.
    + eapply add_snippet_succeeds; eauto using new_rowid_next.
    + apply length_insert_row.
  - reflexivity.
Qed.

Lemma not_null_rejects_none_only_witness :
  exists e, add_snippet nameless [] [] = Raise e []
            /\ (rowid_available [] -> e = IntegrityError).
Proof.
  apply (proj1 (not_null_rejects_none_only nameless [] [])).
  left. reflexivity.
Defined.

(** C4. Deleting an id that no row has is a no-op: the statement returns
    without an error, the table is the same, and so is what
    [get_all_snippets] returns. *)
Theorem delete_absent_id_is_noop (i : option Z) (d : database) :
  (forall n, i = Some n -> ~ In n (rowids d)) ->
  delete_by_id i d = Return tt d
  /\ get_all_snippets (state_of (delete_by_id i d)) = get_all_snippets d.
Proof.
  intros Habs.
  assert (H : sql_delete i d = d).
  { destruct i as [n|]; [|reflexivity].
    apply sql_delete_absent. now apply Habs. }
  unfold delete_by_id. cbn. now rewrite H.
Qed.

Lemma delete_absent_id_is_noop_witness :
  delete_by_id (Some 7) [hello_row 1; hello_row 2]
  = Return tt [hello_row 1; hello_row 2]
  /\ get_all_snippets
       (state_of (delete_by_id (Some 7) [hello_row 1; hello_row 2]))
     = get_all_snippets [hello_row 1; hello_row 2].
Proof.
  apply (delete_absent_id_is_noop (Some 7) [hello_row 1; hello_row 2]).
  intros n Hn. injection Hn as <-. cbn. intuition discriminate.
Defined.

(** C5, as stated, fails: the id of a deleted last row is given again,
    so the ids assigned along a run do not strictly increase. *)
Lemma id_reused_after_delete :
  map (fun a => snd (fst a))
      (assignments [OpAdd hello []; OpDelete (Some 1); OpAdd untitled []] [])
  = [1; 1]
  /\ strictly_increasing [1; 1] = false.
Proof. split; reflexivity. Qed.

(** C5, amended. Along every run of inserts and deletes from a table whose
    ids are distinct, the ids stay distinct, and the id given to each new
    row is in use by no row stored at that moment; when the largest rowid is
    not the last one it is that rowid plus one (1 in an empty table), hence
    above the id of every row stored at that moment. *)
Theorem assigned_ids_fresh_and_above_stored
    (ops : list store_op) (d : database) :
  NoDup (rowids d) ->
  NoDup (rowids (run_ops ops d))
  /\ Forall
       (fun a =>
          let '(before, n, after) := a in
          ~ In n (rowids before)
          /\ In n (rowids after)
          /\ NoDup (rowids after)
          /\ (rowid_available before ->
              n = match max_rowid before with
                  | None => 1
                  | Some m => m + 1
                  end
              /\ forall m, In m (rowids before) -> m < n))
       (assignments ops d).
Proof.
  revert d. induction ops as [|o ops IH]; intros d Hnd; cbn.
  - split; [assumption | constructor].
  - pose proof (exec_op_NoDup o d Hnd) as Hnd'.
    destruct (IH _ Hnd') as [Hfinal Hrest].
    split; [assumption|].
    destruct (assigned_id o d) as [n|] eqn:Hn; [|assumption].
    constructor; [|assumption].
    apply assigned_id_In in Hn. destruct Hn as (s & c & -> & Hn & Hin).
    split; [now apply new_rowid_fresh with (c := c)|].
    split; [assumption|]. split; [assumption|].
    intros Hav. split.
    + rewrite (new_rowid_next c d Hav) in Hn. now injection Hn.
    + now apply new_rowid_above with (c := c).
Qed.

Lemma assigned_ids_fresh_and_above_stored_witness :
  NoDup (rowids
           (run_ops [OpAdd hello []; OpDelete (Some 1); OpAdd untitled []]
              [hello_row 1]))
  /\ Forall
       (fun a =>
          let '(before, n, after) := a in
          ~ In n (rowids before)
          /\ In n (rowids after)
          /\ NoDup (rowids after)
          /\ (rowid_available before ->
              n = match max_rowid before with
                  | None => 1
                  | Some m => m + 1
                  end
              /\ forall m, In m (rowids before) -> m < n))
       (assignments [OpAdd hello []; OpDelete (Some 1); OpAdd untitled []]
          [hello_row 1]).
Proof.
  apply (assigned_ids_fresh_and_above_stored
           [OpAdd hello []; OpDelete (Some 1); OpAdd untitled []]
           [hello_row 1]).
  cbn. constructor; [intros [] | constructor].
Defined.

(** ** The highlighting helper *)

Section PygmentsFacts.

Variables lexer formatter : Type.
Variable get_lexer_by_name : pyval -> result lexer.
Variable guess_lexer : pyval -> result lexer.
Variable HtmlFormatter : result formatter.
Variable highlight : pyval -> lexer -> formatter -> result string.

(** What the helper relies on: the lexer named ['text'] exists, the
    formatter can be built, and rendering a text with a lexer returns. *)
Hypothesis text_lexer_available :
  exists lx, get_lexer_by_name (PyStr "text") = Ok lx.
Hypothesis formatter_available : exists fmt, HtmlFormatter = Ok fmt.
Hypothesis highlight_returns :
  forall code lx fmt, exists html, highlight (PyStr code) lx fmt = Ok html.

Lemma resolve_lexer_returns (code language : pyval) :
  exists lx,
    resolve_lexer lexer get_lexer_by_name guess_lexer code language = Ok lx.
Proof.
  unfold resolve_lexer.
  destruct (get_lexer_by_name language) as [lx|e]; [now exists lx|].
  destruct (guess_lexer code) as [lx|e']; [now exists lx|].
  exact text_lexer_available.
Qed.

(** C8. For every code text and language label, [highlight_code_html]
    returns an HTML string: the lexer is the one found by name, else (first
    fallback) the one guessed from the code, else (second fallback) the
    plain-text lexer, so that a failed lookup or guess never reaches the
    caller; the result is what [highlight] renders with that lexer. *)
Theorem highlight_code_html_never_raises (code language : string) :
  exists lx fmt html,
    highlight_code_html lexer formatter get_lexer_by_name guess_lexer
      HtmlFormatter highlight (PyStr code) (PyStr language) = Ok html
    /\ HtmlFormatter = Ok fmt
    /\ highlight (PyStr code) lx fmt = Ok html
    /\ (fallbacks lexer get_lexer_by_name guess_lexer
          (PyStr code) (PyStr language) <= 2)%nat
    /\ match fallbacks lexer get_lexer_by_name guess_lexer
               (PyStr code) (PyStr language) with
       | O => get_lexer_by_name (PyStr language) = Ok lx
       | S O => guess_lexer (PyStr code) = Ok lx
       | _ => get_lexer_by_name (PyStr "text") = Ok lx
       end.
Proof.
  destruct (resolve_lexer_returns (PyStr code) (PyStr language))
    as [lx Hlx].
  destruct formatter_available as [fmt Hfmt].
  destruct (highlight_returns code lx fmt) as [html Hhtml].
  exists lx, fmt, html. unfold highlight_code_html.
  rewrite Hlx, Hfmt. repeat split; try assumption.
  - unfold fallbacks.
    destruct (get_lexer_by_name (PyStr language)); [lia|].
    destruct (guess_lexer (PyStr code)); lia.
  - revert Hlx. unfold resolve_lexer, fallbacks.
    destruct (get_lexer_by_name (PyStr language)) as [l0|e0];
      [trivial|].
    destruct (guess_lexer (PyStr code)) as [l1|e1]; trivial.
Qed.

End PygmentsFacts.

Lemma highlight_code_html_never_raises_witness :
  exists lx fmt html,
    highlight_code_html string unit toy_get_lexer_by_name toy_guess_lexer
      (Ok tt) toy_highlight (PyStr "x = 1") (PyStr "cobol") = Ok html
    /\ Ok tt = Ok fmt
    /\ toy_highlight (PyStr "x = 1") lx fmt = Ok html
    /\ (fallbacks string toy_get_lexer_by_name toy_guess_lexer
          (PyStr "x = 1") (PyStr "cobol") <= 2)%nat
    /\ match fallbacks string toy_get_lexer_by_name toy_guess_lexer
               (PyStr "x = 1") (PyStr "cobol") with
       | O => toy_get_lexer_by_name (PyStr "cobol") = Ok lx
       | S O => toy_guess_lexer (PyStr "x = 1") = Ok lx
       | _ => toy_get_lexer_by_name (PyStr "text") = Ok lx
       end.
Proof.
  apply (highlight_code_html_never_raises string unit toy_get_lexer_by_name
           toy_guess_lexer (Ok tt) toy_highlight).
  - exists "text". reflexivity.
  - exists tt. reflexivity.
  - intros code lx fmt. eexists. reflexivity.
Defined.

(** The helper has no handler around [highlight]: its failure is the
    failure of the helper. *)
Lemma highlight_failure_propagates
    (lexer formatter : Type)
    (get_lexer_by_name guess_lexer : pyval -> result lexer) (fmt : formatter)
    (highlight : pyval -> lexer -> formatter -> result string)
    (code language : pyval) (lx : lexer) (e : exn) :
  get_lexer_by_name language = Ok lx ->
  highlight code lx fmt = Err e ->
  highlight_code_html lexer formatter get_lexer_by_name guess_lexer
    (Ok fmt) highlight code language = Err e.
Proof.
  intros Hlx He. unfold highlight_code_html, resolve_lexer.
  now rewrite Hlx.
Qed.

(** ** The controller *)

Section AppFacts.

Variable upper : string -> string.

Lemma languages_present_has_language (d : database) :
  languages_present d <-> Forall has_language (get_all_snippets d).
Proof.
  unfold languages_present, get_all_snippets, sql_select_all.
  induction d as [|r d IH]; cbn.
  - split; constructor.
  - split; intros H; inversion H as [|? ? Hr Hd]; subst;
      (constructor; [|now apply IH]).
    + unfold has_language. cbn.
      destruct (row_language r) as [|lang]; [discriminate|].
      now exists lang.
    + destruct Hr as [lang Hr]. cbn in Hr.
      destruct (row_language r); [discriminate | reflexivity].
Qed.

Lemma insert_line_eq (snippet : Snippet.t) (st : app) :
  insert_line upper snippet st
  = match Snippet.language snippet with
    | PyStr lang =>
        Return tt
          (mk_app (db st) (snippets st)
             (listbox_insert_end (line_of upper snippet)
                (snippet_listbox st))
             (code_display st) (dialogs st))
    | PyNone => Raise AttributeError st
    end.
Proof.
  unfold insert_line, bind, line_of, label.
  destruct (Snippet.language snippet); reflexivity.
Qed.

(** The loop of [load_snippets]: one line per snippet, in order. *)
Lemma fill_listbox_returns (l : list Snippet.t) (st : app) :
  Forall has_language l ->
  for_each l (insert_line upper) st
  = Return tt
      (mk_app (db st) (snippets st)
         (mk_listbox (lb_items (snippet_listbox st) ++ map (line_of upper) l)
            (curselection (snippet_listbox st)))
         (code_display st) (dialogs st)).
Proof.
  revert st. induction l as [|s l IH]; intros st Hl.
  - cbn. unfold ret. rewrite app_nil_r.
    destruct st as [d sn [items sel] cd ds]. reflexivity.
  - inversion Hl as [|? ? [lang Hs] Hl']; subst.
    cbn [for_each]. unfold bind. rewrite insert_line_eq, Hs.
    rewrite IH by assumption. cbn.
    now rewrite <- app_assoc.
Qed.

(** It stops at the first snippet whose language is [None]. *)
Lemma fill_listbox_inv (l : list Snippet.t) (st st' : app) :
  for_each l (insert_line upper) st = Return tt st' ->
  Forall has_language l.
Proof.
  revert st. induction l as [|s l IH]; intros st; [constructor|].
  cbn [for_each]. unfold bind. rewrite insert_line_eq.
  destruct (Snippet.language s) as [|lang] eqn:Hs; [discriminate|].
  intros H. constructor; [now exists lang | eapply IH; eassumption].
Qed.

(** Whatever its outcome, it touches the listbox only. *)
Lemma fill_listbox_frame (l : list Snippet.t) (st : app) :
  db (state_of (for_each l (insert_line upper) st)) = db st
  /\ snippets (state_of (for_each l (insert_line upper) st)) = snippets st
  /\ code_display (state_of (for_each l (insert_line upper) st))
     = code_display st
  /\ dialogs (state_of (for_each l (insert_line upper) st)) = dialogs st.
Proof.
  revert st. induction l as [|s l IH]; intros st.
  - cbn. repeat split.
  - cbn [for_each]. unfold bind. rewrite insert_line_eq.
    destruct (Snippet.language s) as [|lang] eqn:Hs.
    + cbn. repeat split.
    + match goal with
      | |- context [for_each l _ ?st1] => specialize (IH st1)
      end.
      exact IH.
Qed.

Lemma load_snippets_returns (st : app) :
  languages_present (db st) ->
  load_snippets upper st = Return tt (loaded upper st).
Proof.
  intros Hl. apply languages_present_has_language in Hl.
  unfold load_snippets, bind, get, set_snippets, on_listbox. cbn.
  now rewrite fill_listbox_returns.
Qed.

Lemma load_snippets_inv (st st' : app) :
  load_snippets upper st = Return tt st' ->
  languages_present (db st) /\ st' = loaded upper st.
Proof.
  intros H.
  assert (Hl : languages_present (db st)).
  { apply languages_present_has_language.
    revert H. unfold load_snippets, bind, get, set_snippets, on_listbox.
    cbn.
    apply fill_listbox_inv. }
  split; [assumption|].
  rewrite (load_snippets_returns st Hl) in H. now injection H.
Qed.

(** A refresh never writes to the store, the detail pane or the dialogs. *)
Lemma load_snippets_frame (st : app) :
  db (state_of (load_snippets upper st)) = db st
  /\ code_display (state_of (load_snippets upper st)) = code_display st
  /\ dialogs (state_of (load_snippets upper st)) = dialogs st.
Proof.
  unfold load_snippets, bind, get, set_snippets, on_listbox. cbn.
  match goal with
  | |- context [for_each ?l ?f ?st1] =>
      pose proof (fill_listbox_frame l st1) as H
  end.
  cbn in H. tauto.
Qed.

Lemma loaded_aligned (st : app) :
  languages_present (db st) -> aligned upper (loaded upper st).
Proof.
  intros Hl. apply languages_present_has_language in Hl.
  unfold aligned, loaded. cbn. split; [apply length_map|].
  intros i snippet Hi.
  assert (Hs : has_language snippet).
  { rewrite Forall_forall in Hl. eapply Hl, nth_error_In; eassumption. }
  destruct Hs as [lang Hs]. exists lang. split; [assumption|].
  rewrite nth_error_map, Hi. cbn. unfold line_of. now rewrite Hs.
Qed.

Lemma truthy_str (v : pyval) :
  truthy v = true -> exists s, v = PyStr s /\ s <> "".
Proof.
  destruct v as [|s]; cbn; [discriminate|].
  intros H. exists s. split; [reflexivity|].
  intros ->. discriminate.
Qed.

Lemma kept_language_str (answer : pyval) :
  exists lang, kept_language answer = PyStr lang /\ lang <> "".
Proof.
  unfold kept_language, py_not.
  destruct (truthy answer) eqn:E; cbn.
  - now apply truthy_str.
  - exists "text". split; [reflexivity | discriminate].
Qed.

Lemma languages_present_insert_row (r : row) (d : database) :
  is_null (row_language r) = false ->
  languages_present d -> languages_present (insert_row r d).
Proof.
  unfold languages_present. rewrite !Forall_forall.
  intros Hr Hd x Hx. apply In_insert_row in Hx.
  destruct Hx as [->|Hx]; [assumption | now apply Hd].
Qed.

(** *** Selection *)

(** The block that the handler builds is the block to show. *)
Lemma details_detail_block (snippet : Snippet.t) :
  details snippet = detail_block snippet.
Proof. reflexivity. Qed.

Lemma select_shows (i : nat) (snippet : Snippet.t) (st : app) :
  List.length (lb_items (snippet_listbox st)) = List.length (snippets st) ->
  nth_error (snippets st) i = Some snippet ->
  select i st = Return tt (showing i snippet st).
Proof.
  intros Hlen Hi.
  assert (Hlt : (i <? List.length (lb_items (snippet_listbox st)))%nat
                = true).
  { apply Nat.ltb_lt. rewrite Hlen. apply nth_error_Some. congruence. }
  unfold select, show_snippet_details, try_except,
    show_snippet_details_body, bind, get, on_listbox, listbox_click,
    py_index, on_code_display.
  rewrite Hlt. cbn. rewrite Hi. reflexivity.
Qed.

Lemma no_selection_raises (st : app) :
  curselection (snippet_listbox st) = [] ->
  show_snippet_details_body st = Raise IndexError st.
Proof.
  intros Hsel. unfold show_snippet_details_body, bind, get, py_index.
  rewrite Hsel. reflexivity.
Qed.

(** *** The add flow *)

Lemma with_dialogs_app (a b : list dialog) (st : app) :
  with_dialogs b (with_dialogs a st) = with_dialogs (a ++ b) st.
Proof. unfold with_dialogs. cbn. now rewrite app_assoc. Qed.

Lemma askstring_eq (u : user) (title prompt : string)
    (initialvalue : option string) (st : app) :
  askstring u title prompt initialvalue st
  = Return (answer_string u prompt initialvalue)
      (with_dialogs [AskString title prompt initialvalue] st).
Proof. reflexivity. Qed.

(** One prompt of the flow: the dialog is logged, the answer bound. *)
Ltac ask_step :=
  unfold bind at 1; rewrite askstring_eq; cbv beta iota;
  rewrite ?with_dialogs_app.

Lemma add_new_snippet_blank_title (u : user) (c : list Z) (st : app) :
  py_not (answer_string u title_prompt None) = true ->
  add_new_snippet upper u c st
  = Return tt (with_dialogs [AskString "Input" title_prompt None] st).
Proof.
  intros Ht. unfold add_new_snippet. ask_step.
  rewrite Ht. reflexivity.
Qed.

Lemma add_new_snippet_blank_code (u : user) (c : list Z) (st : app) :
  py_not (answer_string u title_prompt None) = false ->
  py_not (answer_string u code_prompt None) = true ->
  add_new_snippet upper u c st
  = Return tt
      (with_dialogs
         [AskString "Input" title_prompt None;
          AskString "Input" language_prompt (Some "python");
          AskString "Input" code_prompt None] st).
Proof.
  intros Ht Hk. unfold add_new_snippet. ask_step. rewrite Ht.
  ask_step. ask_step. rewrite Hk. reflexivity.
Qed.

(** With a title and a code, the five prompts are followed by the insert,
    the refresh and the confirmation. *)
Lemma add_new_snippet_proceeds (u : user) (c : list Z) (st : app) :
  py_not (answer_string u title_prompt None) = false ->
  py_not (answer_string u code_prompt None) = false ->
  add_new_snippet upper u c st
  = (on_db (add_snippet (snippet_of_answers u) c) ;;
     load_snippets upper ;;
     open_dialog (success_dialog u)) (with_dialogs five_prompts st).
Proof.
  intros Ht Hk. unfold add_new_snippet. ask_step. rewrite Ht.
  ask_step. ask_step. rewrite Hk. ask_step. ask_step.
  reflexivity.
Qed.

Lemma py_not_truthy (v : pyval) : truthy v = true -> py_not v = false.
Proof. unfold py_not. now intros ->. Qed.

Lemma add_snippet_of_answers (u : user) (c : list Z) (d : database) :
  truthy (answer_string u title_prompt None) = true ->
  truthy (answer_string u code_prompt None) = true ->
  rowid_available d ->
  add_snippet (snippet_of_answers u) c d
  = Return tt (insert_row (row_of_answers u (next_rowid d)) d).
Proof.
  intros Ht Hk Hav.
  destruct (truthy_str _ Ht) as (t & Et & _).
  destruct (truthy_str _ Hk) as (k & Ek & _).
  rewrite (add_snippet_succeeds (snippet_of_answers u) c d (next_rowid d)
             t k (new_rowid_next c d Hav) Et Ek).
  unfold row_of_answers. cbn. now rewrite Et, Ek.
Qed.

(** The add flow with a title and a code: the row is in the table whatever
    the refresh does, and when every stored language is a string the flow
    returns after the refresh and the confirmation. *)
Lemma add_new_snippet_stores (u : user) (c : list Z) (st : app) :
  truthy (answer_string u title_prompt None) = true ->
  truthy (answer_string u code_prompt None) = true ->
  rowid_available (db st) ->
  db (state_of (add_new_snippet upper u c st))
  = insert_row (row_of_answers u (next_rowid (db st))) (db st)
  /\ (languages_present (db st) ->
      add_new_snippet upper u c st
      = Return tt
          (with_dialogs [success_dialog u]
             (loaded upper
                (with_db
                   (insert_row (row_of_answers u (next_rowid (db st)))
                      (db st))
                   (with_dialogs five_prompts st))))).
Proof.
  intros Ht Hk Hav.
  set (st1 := with_db
                (insert_row (row_of_answers u (next_rowid (db st))) (db st))
                (with_dialogs five_prompts st)).
  assert (E : add_new_snippet upper u c st
              = (load_snippets upper ;; open_dialog (success_dialog u)) st1).
  { rewrite (add_new_snippet_proceeds u c st (py_not_truthy _ Ht)
               (py_not_truthy _ Hk)).
    unfold bind at 1. unfold on_db.
    change (db (with_dialogs five_prompts st)) with (db st).
    now rewrite (add_snippet_of_answers u c (db st) Ht Hk Hav). }
  rewrite E. unfold bind. split.
  - pose proof (load_snippets_frame st1) as (Hdb & _ & _).
    destruct (load_snippets upper st1) as [[] st2|e st2];
      cbn in *; assumption.
  - intros Hl. rewrite load_snippets_returns; [reflexivity|].
    apply languages_present_insert_row; [|assumption].
    destruct (kept_language_str
                (answer_string u language_prompt (Some "python")))
      as (lang & El & _).
    unfold row_of_answers, snippet_of_answers. cbn. now rewrite El.
Qed.

(** The dialogs of an add flow that has a title and a code start with the
    five prompts, whatever happens next. *)
Lemma add_new_snippet_dialogs (u : user) (c : list Z) (st : app) :
  truthy (answer_string u title_prompt None) = true ->
  truthy (answer_string u code_prompt None) = true ->
  exists ds,
    dialogs (state_of (add_new_snippet upper u c st))
    = (dialogs st ++ five_prompts ++ ds)%list.
Proof.
  intros Ht Hk.
  rewrite (add_new_snippet_proceeds u c st (py_not_truthy _ Ht)
             (py_not_truthy _ Hk)).
  unfold bind at 1. unfold on_db.
  destruct (add_snippet (snippet_of_answers u) c
              (db (with_dialogs five_prompts st))) as [[] d|e d].
  - match goal with
    | |- context [bind (load_snippets upper) _ ?st2] => set (st1 := st2)
    end.
    pose proof (load_snippets_frame st1) as (_ & _ & Hds).
    unfold bind. destruct (load_snippets upper st1) as [[] st2|e st2];
      cbn in *; rewrite Hds.
    + exists [success_dialog u]. cbn. now rewrite <- ?app_assoc.
    + exists []. cbn. now rewrite ?app_nil_r.
  - exists []. cbn. now rewrite ?app_nil_r.
Qed.

(** *** The delete flow *)

Lemma askyesno_eq (u : user) (title message : string) (st : app) :
  askyesno u title message st
  = Return (answer_yesno u message)
      (with_dialogs [AskYesNo title message] st).
Proof. reflexivity. Qed.

Lemma languages_present_sql_delete (i : option Z) (d : database) :
  languages_present d -> languages_present (sql_delete i d).
Proof.
  destruct i as [n|]; [|trivial].
  unfold languages_present. cbn. rewrite !Forall_forall.
  intros Hd x Hx. apply filter_In in Hx. now apply Hd.
Qed.

Lemma delete_snippet_none_selected (u : user) (st : app) :
  nth_error (curselection (snippet_listbox st)) 0 = None ->
  delete_snippet upper u st
  = Return tt (with_dialogs [no_selection_dialog] st).
Proof.
  intros Hsel. unfold delete_snippet, try_except, delete_snippet_body.
  unfold bind at 1. unfold get. cbv beta iota.
  unfold bind at 1. unfold py_index at 1. rewrite Hsel. reflexivity.
Qed.

Lemma delete_snippet_out_of_range (u : user) (st : app) (i : nat) :
  nth_error (curselection (snippet_listbox st)) 0 = Some i ->
  nth_error (snippets st) i = None ->
  delete_snippet upper u st
  = Return tt (with_dialogs [no_selection_dialog] st).
Proof.
  intros Hsel Hi. unfold delete_snippet, try_except, delete_snippet_body.
  unfold bind at 1. unfold get. cbv beta iota.
  unfold bind at 1. unfold py_index at 1. rewrite Hsel.
  unfold ret at 1. cbv beta iota.
  unfold bind at 1. unfold py_index at 1. rewrite Hi. reflexivity.
Qed.

Lemma delete_snippet_declined
    (u : user) (st : app) (i : nat) (snippet : Snippet.t) :
  nth_error (curselection (snippet_listbox st)) 0 = Some i ->
  nth_error (snippets st) i = Some snippet ->
  answer_yesno u ("Are you sure you want to delete '"
                  ++ py_format (Snippet.title snippet) ++ "'?") = false ->
  delete_snippet upper u st
  = Return tt (with_dialogs [confirm_dialog snippet] st).
Proof.
  intros Hsel Hi Hno. unfold delete_snippet, try_except, delete_snippet_body.
  unfold bind at 1. unfold get. cbv beta iota.
  unfold bind at 1. unfold py_index at 1. rewrite Hsel.
  unfold ret at 1. cbv beta iota.
  unfold bind at 1. unfold py_index at 1. rewrite Hi.
  unfold ret at 1. cbv beta iota.
  unfold bind at 1. rewrite askyesno_eq. cbv beta iota.
  rewrite Hno. reflexivity.
Qed.

Lemma delete_snippet_confirmed
    (u : user) (st : app) (i : nat) (snippet : Snippet.t) :
  nth_error (curselection (snippet_listbox st)) 0 = Some i ->
  nth_error (snippets st) i = Some snippet ->
  answer_yesno u ("Are you sure you want to delete '"
                  ++ py_format (Snippet.title snippet) ++ "'?") = true ->
  languages_present (db st) ->
  delete_snippet upper u st = Return tt (after_delete upper snippet st).
Proof.
  intros Hsel Hi Hyes Hl.
  unfold delete_snippet, try_except, delete_snippet_body.
  unfold bind at 1. unfold get. cbv beta iota.
  unfold bind at 1. unfold py_index at 1. rewrite Hsel.
  unfold ret at 1. cbv beta iota.
  unfold bind at 1. unfold py_index at 1. rewrite Hi.
  unfold ret at 1. cbv beta iota.
  unfold bind at 1. rewrite askyesno_eq. cbv beta iota.
  rewrite Hyes.
  unfold bind at 1. unfold on_db, delete_by_id. cbv beta iota zeta.
  unfold bind at 1.
  rewrite load_snippets_returns
    by (cbn; now apply languages_present_sql_delete).
  reflexivity.
Qed.

(** *** What the main loop preserves *)

Lemma aligned_same_view (st st' : app) :
  snippets st' = snippets st ->
  lb_items (snippet_listbox st') = lb_items (snippet_listbox st) ->
  aligned upper st -> aligned upper st'.
Proof. unfold aligned. intros -> ->. trivial. Qed.

Lemma consistent_same_view (st st' : app) :
  db st' = db st ->
  snippets st' = snippets st ->
  lb_items (snippet_listbox st') = lb_items (snippet_listbox st) ->
  consistent upper st -> consistent upper st'.
Proof.
  unfold consistent. intros -> Hs Hi [Hl Ha].
  split; [assumption | now apply (aligned_same_view st)].
Qed.

Lemma consistent_loaded (st : app) :
  languages_present (db st) -> consistent upper (loaded upper st).
Proof. intros Hl. split; [assumption | now apply loaded_aligned]. Qed.

Lemma app_init_consistent (file : option database) (st : app) :
  app_init upper file = Return tt st -> consistent upper st.
Proof.
  unfold app_init. intros H. apply load_snippets_inv in H.
  destruct H as [Hl ->]. now apply consistent_loaded.
Qed.

Lemma add_new_snippet_consistent (u : user) (c : list Z) (st : app) :
  consistent upper st ->
  consistent upper (state_of (add_new_snippet upper u c st)).
Proof.
  intros Hc.
  destruct (py_not (answer_string u title_prompt None)) eqn:Ht.
  { rewrite add_new_snippet_blank_title by assumption.
    now apply (consistent_same_view st). }
  destruct (py_not (answer_string u code_prompt None)) eqn:Hk.
  { rewrite add_new_snippet_blank_code by assumption.
    now apply (consistent_same_view st). }
  rewrite add_new_snippet_proceeds by assumption.
  unfold bind at 1. unfold on_db.
  destruct (add_snippet (snippet_of_answers u) c
              (db (with_dialogs five_prompts st))) as [[] d|e d] eqn:E.
  - assert (Hd : languages_present d).
    { apply add_snippet_returns in E.
      destruct E as (n & t & k & _ & _ & _ & ->).
      apply languages_present_insert_row; [|apply Hc].
      destruct (kept_language_str
                  (answer_string u language_prompt (Some "python")))
        as (lang & El & _).
      cbn. now rewrite El. }
    unfold bind. rewrite load_snippets_returns by exact Hd.
    cbn. apply (consistent_same_view
                  (loaded upper (with_db d (with_dialogs five_prompts st))));
      try reflexivity.
    now apply consistent_loaded.
  - apply add_snippet_raises in E. subst d. cbn.
    now apply (consistent_same_view st).
Qed.

Lemma delete_snippet_consistent (u : user) (st : app) :
  consistent upper st ->
  consistent upper (state_of (delete_snippet upper u st)).
Proof.
  intros Hc.
  destruct (nth_error (curselection (snippet_listbox st)) 0)
    as [i|] eqn:Hsel.
  2:{ rewrite delete_snippet_none_selected by assumption.
      now apply (consistent_same_view st). }
  destruct (nth_error (snippets st) i) as [snippet|] eqn:Hi.
  2:{ rewrite (delete_snippet_out_of_range u st i) by assumption.
      now apply (consistent_same_view st). }
  destruct (answer_yesno u ("Are you sure you want to delete '"
                            ++ py_format (Snippet.title snippet) ++ "'?"))
    eqn:Hans.
  - rewrite (delete_snippet_confirmed u st i snippet)
      by (assumption || apply Hc).
    cbn. unfold after_delete.
    apply (consistent_same_view
             (loaded upper
                (with_db (sql_delete (Snippet.id snippet) (db st))
                   (with_dialogs [confirm_dialog snippet] st))));
      try reflexivity.
    apply consistent_loaded. cbn.
    apply languages_present_sql_delete, Hc.
  - rewrite (delete_snippet_declined u st i snippet) by assumption.
    now apply (consistent_same_view st).
Qed.

Lemma listbox_click_items (i : nat) (lb : Listbox) :
  lb_items (listbox_click i lb) = lb_items lb.
Proof.
  unfold listbox_click.
  now destruct (i <? List.length (lb_items lb))%nat.
Qed.

(** The selection handler, case by case. *)
Lemma show_snippet_details_eq (st : app) :
  show_snippet_details st
  = match nth_error (curselection (snippet_listbox st)) 0 with
    | None => Return tt st
    | Some i =>
        match nth_error (snippets st) i with
        | None => Return tt st
        | Some snippet =>
            Return tt
              (mk_app (db st) (snippets st) (snippet_listbox st)
                 (mk_text (details snippet) DISABLED) (dialogs st))
        end
    end.
Proof.
  unfold show_snippet_details, try_except, show_snippet_details_body.
  unfold bind at 1. unfold get. cbv beta iota.
  unfold bind at 1. unfold py_index at 1.
  destruct (nth_error (curselection (snippet_listbox st)) 0) as [n|];
    [|reflexivity].
  unfold ret at 1. cbv beta iota.
  unfold bind at 1. unfold py_index at 1.
  destruct (nth_error (snippets st) n) as [snippet|]; reflexivity.
Qed.

(** It writes to the detail pane only. *)
Lemma show_snippet_details_frame (st : app) :
  db (state_of (show_snippet_details st)) = db st
  /\ snippets (state_of (show_snippet_details st)) = snippets st
  /\ snippet_listbox (state_of (show_snippet_details st))
     = snippet_listbox st
  /\ dialogs (state_of (show_snippet_details st)) = dialogs st.
Proof.
  rewrite show_snippet_details_eq.
  destruct (nth_error (curselection (snippet_listbox st)) 0) as [n|];
    [|cbn; tauto].
  destruct (nth_error (snippets st) n) as [snippet|]; cbn; tauto.
Qed.

Lemma select_consistent (i : nat) (st : app) :
  consistent upper st -> consistent upper (state_of (select i st)).
Proof.
  intros Hc. unfold select. unfold bind at 1. unfold on_listbox at 1.
  match goal with
  | |- context [show_snippet_details ?st1] =>
      destruct (show_snippet_details_frame st1) as (Hd & Hs & Hb & _)
  end.
  apply (consistent_same_view st); [| | |assumption].
  - now rewrite Hd.
  - now rewrite Hs.
  - rewrite Hb. cbn. apply listbox_click_items.
Qed.

(** Once [__init__] has returned, the listbox and the in-memory list stay
    aligned and every stored language stays a string, whatever the user
    does: every refresh of the running application returns. *)
Lemma mainloop_consistent (gs : list gesture) (st : app) :
  consistent upper st -> consistent upper (mainloop upper gs st).
Proof.
  revert st. induction gs as [|g gs IH]; intros st Hc; [assumption|].
  cbn [mainloop]. apply IH.
  destruct g as [u c|u|i]; cbn [handle].
  - now apply add_new_snippet_consistent.
  - now apply delete_snippet_consistent.
  - now apply select_consistent.
Qed.

(** *** The statements about the controller *)

(** C3. Atomic abort of the add flow: when the answer to the title prompt
    or to the code prompt is [None] or the empty string, [add_new_snippet]
    returns with the store, the in-memory list, the listbox and the detail
    pane as they were, and the only dialogs it opened are prompts: no
    confirmation. The two cases are stated by one conclusion. *)
Theorem add_flow_aborts_without_side_effect
    (u : user) (c : list Z) (st : app) :
  py_not (answer_string u title_prompt None) = true
  \/ py_not (answer_string u code_prompt None) = true ->
  exists st' ds,
    add_new_snippet upper u c st = Return tt st'
    /\ db st' = db st
    /\ get_all_snippets (db st') = get_all_snippets (db st)
    /\ snippets st' = snippets st
    /\ snippet_listbox st' = snippet_listbox st
    /\ code_display st' = code_display st
    /\ opened st st' ds
    /\ forallb is_prompt ds = true.
Proof.
  intros Hblank.
  destruct (py_not (answer_string u title_prompt None)) eqn:Ht.
  - eexists. eexists. split; [now apply add_new_snippet_blank_title|].
    cbn. repeat split.
  - destruct Hblank as [Hblank|Hk]; [discriminate|].
    eexists. eexists.
    split; [now apply add_new_snippet_blank_code|].
    cbn. repeat split.
Qed.

(** C6. Index alignment and label format on refresh: after every
    [load_snippets] that returns, the in-memory list is what the store
    lists, the listbox has as many lines as the in-memory list has
    snippets, line [i] is ["[" ++ upper language ++ "] " ++ title] of
    snippet [i], and selecting line [i] leaves line [i] selected and the
    detail pane disabled and holding the block of snippet [i]: its title,
    language and tags after their headings, its description and its code
    under theirs. Store, in-memory list, lines and dialogs are as the
    refresh left them. [load_snippets] returns whenever no stored language
    is NULL. *)
Theorem refresh_keeps_list_aligned (st : app) :
  (forall st',
      load_snippets upper st = Return tt st' ->
      snippets st' = get_all_snippets (db st)
      /\ aligned upper st'
      /\ forall i snippet,
           nth_error (snippets st') i = Some snippet ->
           select i st'
           = Return tt
               (mk_app (db st') (snippets st')
                  (mk_listbox (lb_items (snippet_listbox st')) [i])
                  (mk_text
                     (String.concat newline
                        ["Title: " ++ shown_text (Snippet.title snippet);
                         "Language: "
                         ++ shown_text (Snippet.language snippet);
                         "Tags: " ++ shown_text (Snippet.tags snippet);
                         "Description:";
                         shown_text (Snippet.description snippet);
                         "";
                         "--- CODE ---";
                         shown_text (Snippet.code snippet)])
                     DISABLED)
                  (dialogs st')))
  /\ (languages_present (db st) ->
      exists st', load_snippets upper st = Return tt st').
Proof.
  split.
  - intros st' Hload. apply load_snippets_inv in Hload.
    destruct Hload as [Hl ->].
    pose proof (loaded_aligned st Hl) as Hal.
    split; [reflexivity|]. split; [assumption|].
    intros i snippet Hi.
    rewrite (select_shows i snippet (loaded upper st)); [|apply Hal|exact Hi].
    unfold showing. now rewrite details_detail_block.
  - intros Hl. eexists. now apply load_snippets_returns.
Qed.

(** C7. Two-layer language default: with a title and a code, the language
    prompt is opened with ["python"] pre-filled; the record that the flow
    stores has the language ["text"] when the answer to that prompt is
    [None] or empty, and the answer itself when it is a non-empty string. *)
Theorem add_flow_language_defaults (u : user) (c : list Z) (st : app) :
  truthy (answer_string u title_prompt None) = true ->
  truthy (answer_string u code_prompt None) = true ->
  In (AskString "Input" language_prompt (Some "python"))
     (dialogs (state_of (add_new_snippet upper u c st)))
  /\ (rowid_available (db st) ->
      exists n lang,
        In (Snippet.mk (Some n) (answer_string u title_prompt None)
              (answer_string u code_prompt None) lang
              (answer_string u tags_prompt None)
              (answer_string u description_prompt None))
           (get_all_snippets (db (state_of (add_new_snippet upper u c st))))
        /\ ~ In n (rowids (db st))
        /\ (py_not (answer_string u language_prompt (Some "python")) = true
            -> lang = PyStr "text")
        /\ (forall r,
               answer_string u language_prompt (Some "python") = PyStr r ->
               r <> "" -> lang = PyStr r)).
Proof.
  intros Ht Hk. split.
  - destruct (add_new_snippet_dialogs u c st Ht Hk) as [ds ->].
    apply in_or_app. right. apply in_or_app. left.
    cbn. right. now left.
  - intros Hav.
    destruct (add_new_snippet_stores u c st Ht Hk Hav) as [Hdb _].
    exists (next_rowid (db st)),
      (kept_language (answer_string u language_prompt (Some "python"))).
    rewrite Hdb. repeat split.
    + pose proof (get_all_snippets_In
                    (insert_row (row_of_answers u (next_rowid (db st)))
                       (db st))
                    (row_of_answers u (next_rowid (db st)))) as Hin.
      cbn in Hin. rewrite !bind_fetch in Hin.
      apply Hin, In_insert_row. now left.
    + apply new_rowid_fresh with (c := c). now apply new_rowid_next.
    + unfold kept_language. now intros ->.
    + intros r Hr Hne. unfold kept_language, py_not. rewrite Hr. cbn.
      destruct (String.eqb_spec r ""); [contradiction | reflexivity].
Qed.

(** C9, amended. With a title and a code, the flow goes on whatever the
    answers to the tags and description prompts are, and the stored row and
    the record read back carry these answers as they are: [None] (NULL in
    the table) for a cancelled prompt, the empty string for an empty entry.
    When no stored language is NULL the flow returns, the confirmation
    being its last dialog. *)
Theorem add_flow_stores_tags_and_description_as_answered
    (u : user) (c : list Z) (st : app) :
  truthy (answer_string u title_prompt None) = true ->
  truthy (answer_string u code_prompt None) = true ->
  rowid_available (db st) ->
  exists n r snippet,
    In r (db (state_of (add_new_snippet upper u c st)))
    /\ row_id r = n /\ ~ In n (rowids (db st))
    /\ row_tags r = bind_param (answer_string u tags_prompt None)
    /\ row_description r
       = bind_param (answer_string u description_prompt None)
    /\ (answer_string u tags_prompt None = PyNone -> row_tags r = SqlNull)
    /\ (answer_string u description_prompt None = PyNone ->
        row_description r = SqlNull)
    /\ In snippet
         (get_all_snippets (db (state_of (add_new_snippet upper u c st))))
    /\ Snippet.id snippet = Some n
    /\ Snippet.title snippet = answer_string u title_prompt None
    /\ Snippet.code snippet = answer_string u code_prompt None
    /\ Snippet.tags snippet = answer_string u tags_prompt None
    /\ Snippet.description snippet
       = answer_string u description_prompt None
    /\ (languages_present (db st) ->
        exists st' ds,
          add_new_snippet upper u c st = Return tt st'
          /\ opened st st' (ds ++ [success_dialog u])).
Proof.
  intros Ht Hk Hav.
  destruct (add_new_snippet_stores u c st Ht Hk Hav) as [Hdb Hret].
  pose proof (get_all_snippets_In
                (insert_row (row_of_answers u (next_rowid (db st))) (db st))
                (row_of_answers u (next_rowid (db st)))) as Hin.
  cbn in Hin. rewrite !bind_fetch in Hin.
  eexists. eexists. eexists. rewrite Hdb.
  split; [apply In_insert_row; left; reflexivity|].
  split; [reflexivity|].
  split; [apply new_rowid_fresh with (c := c); now apply new_rowid_next|].
  split; [reflexivity|]. split; [reflexivity|].
  split; [cbn; now intros ->|]. split; [cbn; now intros ->|].
  split; [apply Hin, In_insert_row; now left|].
  repeat (split; [reflexivity|]).
  intros Hl. eexists. exists five_prompts.
  split; [now apply Hret|].
  unfold opened. cbn. now rewrite <- app_assoc.
Qed.

(** C10. Selecting with no selected line is a silent no-op: the body of
    [show_snippet_details] raises [IndexError], the handler swallows it,
    and the call returns the state untouched (store, detail pane, dialogs);
    [delete_snippet] in the same situation changes nothing either except
    that it opens the error dialog. *)
Theorem selection_handler_ignores_empty_selection (u : user) (st : app) :
  curselection (snippet_listbox st) = [] ->
  show_snippet_details_body st = Raise IndexError st
  /\ show_snippet_details st = Return tt st
  /\ delete_snippet upper u st
     = Return tt (with_dialogs [no_selection_dialog] st)
  /\ db (with_dialogs [no_selection_dialog] st) = db st.
Proof.
  intros Hsel. split; [now apply no_selection_raises|]. split.
  - unfold show_snippet_details, try_except.
    now rewrite no_selection_raises.
  - split; [|reflexivity].
    unfold delete_snippet, try_except, delete_snippet_body.
    unfold bind at 1. unfold get. cbv beta iota.
    unfold bind at 1. unfold py_index at 1. rewrite Hsel. reflexivity.
Qed.

End AppFacts.

(** ** The statements at concrete inputs *)

Lemma add_flow_aborts_without_side_effect_witness :
  exists st' ds,
    add_new_snippet ascii_upper leaves_code_blank [] one_hello
    = Return tt st'
    /\ db st' = db one_hello
    /\ get_all_snippets (db st') = get_all_snippets (db one_hello)
    /\ snippets st' = snippets one_hello
    /\ snippet_listbox st' = snippet_listbox one_hello
    /\ code_display st' = code_display one_hello
    /\ opened one_hello st' ds
    /\ forallb is_prompt ds = true.
Proof.
  apply (add_flow_aborts_without_side_effect ascii_upper leaves_code_blank
           [] one_hello).
  right. reflexivity.
Defined.

Lemma refresh_keeps_list_aligned_witness :
  snippets (loaded ascii_upper three_rows) = get_all_snippets (db three_rows)
  /\ aligned ascii_upper (loaded ascii_upper three_rows)
  /\ forall i snippet,
       nth_error (snippets (loaded ascii_upper three_rows)) i = Some snippet ->
       select i (loaded ascii_upper three_rows)
       = Return tt
           (mk_app (db (loaded ascii_upper three_rows))
              (snippets (loaded ascii_upper three_rows))
              (mk_listbox
                 (lb_items (snippet_listbox (loaded ascii_upper three_rows)))
                 [i])
              (mk_text
                 (String.concat newline
                    ["Title: " ++ shown_text (Snippet.title snippet);
                     "Language: " ++ shown_text (Snippet.language snippet);
                     "Tags: " ++ shown_text (Snippet.tags snippet);
                     "Description:";
                     shown_text (Snippet.description snippet);
                     "";
                     "--- CODE ---";
                     shown_text (Snippet.code snippet)])
                 DISABLED)
              (dialogs (loaded ascii_upper three_rows))).
Proof.
  apply (proj1 (refresh_keeps_list_aligned ascii_upper three_rows)).
  reflexivity.
Defined.

(** Three rows, refreshed: the lines, and what selecting the second line
    shows, written out. *)
Example three_rows_are_listed_in_order :
  lb_items (snippet_listbox (loaded ascii_upper three_rows))
  = ["[PYTHON] Hello"; "[C] Loop"; "[HTML] Page"].
Proof. reflexivity. Qed.

Example second_line_shows_second_snippet :
  text_content
    (code_display
       (state_of (select 1%nat (loaded ascii_upper three_rows))))
  = "Title: Loop
Language: c
Tags: None
Description:
None

--- CODE ---
for(;;);".
Proof. reflexivity. Qed.

(** The scenario of the specification: one snippet ["Hello"] in Python. *)
Example hello_is_listed_in_upper_case :
  lb_items (snippet_listbox (loaded ascii_upper one_hello))
  = ["[PYTHON] Hello"].
Proof. reflexivity. Qed.

Lemma add_flow_language_defaults_witness :
  In (AskString "Input" language_prompt (Some "python"))
     (dialogs (state_of
                 (add_new_snippet ascii_upper cancels_optional []
                    empty_app)))
  /\ (rowid_available (db empty_app) ->
      exists n lang,
        In (Snippet.mk (Some n)
              (answer_string cancels_optional title_prompt None)
              (answer_string cancels_optional code_prompt None) lang
              (answer_string cancels_optional tags_prompt None)
              (answer_string cancels_optional description_prompt None))
           (get_all_snippets
              (db (state_of
                     (add_new_snippet ascii_upper cancels_optional []
                        empty_app))))
        /\ ~ In n (rowids (db empty_app))
        /\ (py_not (answer_string cancels_optional language_prompt
                      (Some "python")) = true
            -> lang = PyStr "text")
        /\ (forall r,
               answer_string cancels_optional language_prompt
                 (Some "python") = PyStr r ->
               r <> "" -> lang = PyStr r)).
Proof.
  apply (add_flow_language_defaults ascii_upper cancels_optional []
           empty_app); reflexivity.
Defined.

(** C9, as stated, fails for a prompt left blank: an empty entry at the
    tags and description prompts is a falsy answer, and the record read
    back has the empty string in both fields, not [None]. *)
Lemma blank_tags_are_read_back_as_empty_string :
  py_not (answer_string leaves_optional_blank tags_prompt None) = true
  /\ py_not (answer_string leaves_optional_blank description_prompt None)
     = true
  /\ get_all_snippets
       (db (state_of
              (add_new_snippet ascii_upper leaves_optional_blank []
                 empty_app)))
     = [Snippet.mk (Some 1) (PyStr "Hello") (PyStr "print('hi')")
          (PyStr "python") (PyStr "") (PyStr "")]
  /\ PyStr "" <> PyNone.
Proof. repeat split. discriminate. Qed.

Lemma add_flow_stores_tags_and_description_as_answered_witness :
  exists n r snippet,
    In r (db (state_of
                (add_new_snippet ascii_upper cancels_optional []
                   empty_app)))
    /\ row_id r = n /\ ~ In n (rowids (db empty_app))
    /\ row_tags r
       = bind_param (answer_string cancels_optional tags_prompt None)
    /\ row_description r
       = bind_param (answer_string cancels_optional description_prompt None)
    /\ (answer_string cancels_optional tags_prompt None = PyNone ->
        row_tags r = SqlNull)
    /\ (answer_string cancels_optional description_prompt None = PyNone ->
        row_description r = SqlNull)
    /\ In snippet
         (get_all_snippets
            (db (state_of
                   (add_new_snippet ascii_upper cancels_optional []
                      empty_app))))
    /\ Snippet.id snippet = Some n
    /\ Snippet.title snippet
       = answer_string cancels_optional title_prompt None
    /\ Snippet.code snippet
       = answer_string cancels_optional code_prompt None
    /\ Snippet.tags snippet
       = answer_string cancels_optional tags_prompt None
    /\ Snippet.description snippet
       = answer_string cancels_optional description_prompt None
    /\ (languages_present (db empty_app) ->
        exists st' ds,
          add_new_snippet ascii_upper cancels_optional [] empty_app
          = Return tt st'
          /\ opened empty_app st' (ds ++ [success_dialog cancels_optional])).
Proof.
  apply (add_flow_stores_tags_and_description_as_answered ascii_upper
           cancels_optional [] empty_app); (reflexivity || exact I).
Defined.

(** The same input, evaluated: the two fields come back as [None]. *)
Example cancelled_tags_are_read_back_as_none :
  get_all_snippets
    (db (state_of
           (add_new_snippet ascii_upper cancels_optional [] empty_app)))
  = [Snippet.mk (Some 1) (PyStr "Hello") (PyStr "print('hi')")
       (PyStr "text") PyNone PyNone].
Proof. reflexivity. Qed.

Lemma selection_handler_ignores_empty_selection_witness :
  show_snippet_details_body (loaded ascii_upper one_hello)
  = Raise IndexError (loaded ascii_upper one_hello)
  /\ show_snippet_details (loaded ascii_upper one_hello)
     = Return tt (loaded ascii_upper one_hello)
  /\ delete_snippet ascii_upper cancels_title (loaded ascii_upper one_hello)
     = Return tt
         (with_dialogs [no_selection_dialog] (loaded ascii_upper one_hello))
  /\ db (with_dialogs [no_selection_dialog] (loaded ascii_upper one_hello))
     = db (loaded ascii_upper one_hello).
Proof.
  apply (selection_handler_ignores_empty_selection ascii_upper cancels_title
           (loaded ascii_upper one_hello)).
  reflexivity.
Defined.

(** The delete of the controller on a snippet whose id no row has (or
    that has none): the flow runs to its end and the table is the same. *)
Lemma delete_snippet_absent_id
    (upper : string -> string) (u : user) (st : app) (i : nat)
    (snippet : Snippet.t) :
  nth_error (curselection (snippet_listbox st)) 0 = Some i ->
  nth_error (snippets st) i = Some snippet ->
  answer_yesno u ("Are you sure you want to delete '"
                  ++ py_format (Snippet.title snippet) ++ "'?") = true ->
  languages_present (db st) ->
  (forall n, Snippet.id snippet = Some n -> ~ In n (rowids (db st))) ->
  exists st',
    delete_snippet upper u st = Return tt st' /\ db st' = db st.
Proof.
  intros Hsel Hi Hyes Hl Habs. eexists.
  split; [now apply (delete_snippet_confirmed upper u st i snippet)|].
  cbn. destruct (Snippet.id snippet) as [n|]; [|reflexivity].
  apply sql_delete_absent. now apply Habs.
Qed.

(** ** The running application *)

(** From the moment [__init__] has returned, whatever the user does, the
    listbox and the in-memory list are aligned and a refresh returns. *)
Lemma running_app_stays_aligned
    (upper : string -> string) (file : option database) (st0 : app)
    (gs : list gesture) :
  app_init upper file = Return tt st0 ->
  aligned upper (mainloop upper gs st0)
  /\ exists st', load_snippets upper (mainloop upper gs st0) = Return tt st'.
Proof.
  intros Hinit.
  destruct (mainloop_consistent upper gs st0
              (app_init_consistent upper file st0 Hinit)) as [Hl Ha].
  split; [assumption|].
  eexists. now apply load_snippets_returns.
Qed.

(** The scenarios of the specification. *)

Example scenario_add_then_select :
  let st := mainloop ascii_upper [AddNew fills_hello []; Select 0%nat]
              empty_app in
  lb_items (snippet_listbox st) = ["[PYTHON] Hello"]
  /\ text_content (code_display st)
     = details (Snippet.mk (Some 1) (PyStr "Hello") (PyStr "print('hi')")
                  (PyStr "python") (PyStr "demo") (PyStr "greeting"))
  /\ dialogs st = (five_prompts ++ [success_dialog fills_hello])%list.
Proof. repeat split. Qed.

Example scenario_add_with_empty_title :
  mainloop ascii_upper [AddNew cancels_title []] empty_app
  = with_dialogs [AskString "Input" title_prompt None] empty_app.
Proof. reflexivity. Qed.

Example scenario_delete_without_selection :
  mainloop ascii_upper [AddNew fills_hello []; Delete fills_hello] empty_app
  = with_dialogs [no_selection_dialog]
      (mainloop ascii_upper [AddNew fills_hello []] empty_app).
Proof. reflexivity. Qed.

Example scenario_add_two_delete_first :
  get_all_snippets
    (db (mainloop ascii_upper
           [AddNew fills_hello []; AddNew fills_other []; Select 0%nat;
            Delete fills_hello] empty_app))
  = [Snippet.mk (Some 2) (PyStr "Loop") (PyStr "for(;;);") (PyStr "c")
       (PyStr "") PyNone].
Proof. reflexivity. Qed.

(** An answer made of spaces is neither [None] nor empty: the add flow
    goes on with it. *)
Example spaces_are_truthy : py_not (PyStr "   ") = false.
Proof. reflexivity. Qed.

(** * Further properties of the code *)

(** ** The store *)

Lemma get_all_snippets_map (d : database) :
  get_all_snippets d = map record_of_row d.
Proof. reflexivity. Qed.

Lemma insert_row_split (r : row) (d : database) :
  exists l1 l2, d = (l1 ++ l2)%list /\ insert_row r d = (l1 ++ r :: l2)%list.
Proof.
  induction d as [|x d IH]; cbn.
  - now exists [], [].
  - destruct (row_id r <? row_id x).
    + now exists [], (x :: d).
    + destruct IH as (l1 & l2 & -> & ->). now exists (x :: l1), l2.
Qed.

Lemma insert_row_last (r : row) (d : database) :
  (forall n, In n (rowids d) -> n < row_id r) ->
  insert_row r d = (d ++ [r])%list.
Proof.
  induction d as [|x d IH]; cbn; intros Hlt; [reflexivity|].
  destruct (Z.ltb_spec (row_id r) (row_id x)) as [Hx|Hx].
  - specialize (Hlt (row_id x) (or_introl eq_refl)). lia.
  - f_equal. apply IH. intros n Hn. apply Hlt. now right.
Qed.

Lemma sql_delete_insert_row (r : row) (d : database) :
  ~ In (row_id r) (rowids d) ->
  sql_delete (Some (row_id r)) (insert_row r d) = d.
Proof.
  intros Hfresh.
  destruct (insert_row_split r d) as (l1 & l2 & Hd & ->).
  cbn. rewrite filter_app. cbn. rewrite Z.eqb_refl. cbn.
  rewrite <- filter_app, <- Hd.
  now apply (sql_delete_absent (row_id r) d).
Qed.

Lemma sql_delete_nth (d : database) (i : nat) (r : row) :
  NoDup (rowids d) -> nth_error d i = Some r ->
  sql_delete (Some (row_id r)) d = drop_at i d.
Proof.
  revert i. induction d as [|x d IH]; intros i Hnd Hi.
  - destruct i; discriminate.
  - inversion Hnd as [|? ? Hx Hd]; subst. destruct i as [|i]; cbn in Hi.
    + injection Hi as ->. unfold drop_at. cbn.
      rewrite Z.eqb_refl. cbn. now apply (sql_delete_absent (row_id r) d).
    + assert (Hne : row_id x <> row_id r).
      { intros Heq. apply Hx. rewrite Heq.
        apply in_map, (nth_error_In _ _ Hi). }
      unfold drop_at. cbn.
      destruct (Z.eqb_spec (row_id x) (row_id r)); [contradiction|]. cbn.
      f_equal. now apply (IH i).
Qed.

Lemma length_drop_at {A : Type} (i : nat) (l : list A) (x : A) :
  nth_error l i = Some x -> S (List.length (drop_at i l)) = List.length l.
Proof.
  intros Hi.
  assert (Hlt : (i < List.length l)%nat)
    by (apply nth_error_Some; congruence).
  unfold drop_at. rewrite length_app, length_firstn, length_skipn. lia.
Qed.

(** X1. A successful [add_snippet] puts one record into the listing and
    touches no other: the records listed before keep their order, and the
    new one, with the fields of the snippet and the id given by the store,
    stands somewhere among them. *)
Theorem add_snippet_extends_listing
    (s : Snippet.t) (c : list Z) (d d' : database) :
  add_snippet s c d = Return tt d' ->
  exists n before after,
    new_rowid c d = Some n
    /\ get_all_snippets d = (before ++ after)%list
    /\ get_all_snippets d' = (before ++ stored_as n s :: after)%list.
Proof.
  intros Hadd. apply add_snippet_returns in Hadd.
  destruct Hadd as (n & t & k & Hn & Ht & Hk & ->).
  match goal with
  | |- context [insert_row ?r d] =>
      destruct (insert_row_split r d) as (l1 & l2 & Hd & Hins);
      rewrite Hins
  end.
  exists n, (get_all_snippets l1), (get_all_snippets l2).
  split; [assumption|]. rewrite Hd.
  unfold get_all_snippets, sql_select_all. rewrite !map_app.
  split; [reflexivity|]. cbn. unfold stored_as.
  now rewrite Ht, Hk, !bind_fetch.
Qed.

Lemma add_snippet_extends_listing_witness :
  exists n before after,
    new_rowid [] [hello_row 1; hello_row 5] = Some n
    /\ get_all_snippets [hello_row 1; hello_row 5] = (before ++ after)%list
    /\ get_all_snippets
         [hello_row 1; hello_row 5;
          mk_row 6 (SqlText "") (SqlText "") (SqlText "text") (SqlText "")
            (SqlText "")]
       = (before ++ stored_as n untitled :: after)%list.
Proof.
  apply (add_snippet_extends_listing untitled [] [hello_row 1; hello_row 5]).
  reflexivity.
Defined.

(** X2. Away from the last rowid, [add_snippet] of a snippet whose title
    and code are strings returns, gives the snippet the largest id in use
    plus one (1 in an empty table), and the snippet is read back last,
    after all the records that were listed before. *)
Theorem add_snippet_lists_new_record_last
    (s : Snippet.t) (c : list Z) (d : database) (t k : string) :
  Snippet.title s = PyStr t -> Snippet.code s = PyStr k ->
  rowid_available d ->
  exists d',
    add_snippet s c d = Return tt d'
    /\ get_all_snippets d'
       = (get_all_snippets d ++ [stored_as (next_rowid d) s])%list.
Proof.
  intros Ht Hk Hav. eexists. split.
  - eapply add_snippet_succeeds; eauto using new_rowid_next.
  - rewrite insert_row_last.
    + unfold get_all_snippets, sql_select_all. rewrite map_app. cbn.
      unfold stored_as. now rewrite Ht, Hk, !bind_fetch.
    + cbn. apply (new_rowid_above c); [assumption|].
      now apply new_rowid_next.
Qed.

Lemma add_snippet_lists_new_record_last_witness :
  exists d',
    add_snippet hello [] [hello_row 4; hello_row 2] = Return tt d'
    /\ get_all_snippets d'
       = (get_all_snippets [hello_row 4; hello_row 2]
          ++ [stored_as (next_rowid [hello_row 4; hello_row 2]) hello])%list.
Proof.
  apply (add_snippet_lists_new_record_last hello []
           [hello_row 4; hello_row 2] "Hello" "print('hi')");
    reflexivity.
Defined.

(** X4. [delete_by_id] removes the records that bear the id and no other:
    a record is listed afterwards exactly when it was listed before under
    another id. When the ids are distinct and the id is in use, the listing
    is shorter by one. *)
Theorem delete_by_id_removes_exactly (n : Z) (d : database) :
  (forall x,
      In x (get_all_snippets (state_of (delete_by_id (Some n) d)))
      <-> In x (get_all_snippets d) /\ Snippet.id x <> Some n)
  /\ (NoDup (rowids d) -> In n (rowids d) ->
      S (List.length (get_all_snippets (state_of (delete_by_id (Some n) d))))
      = List.length (get_all_snippets d)).
Proof.
  split.
  - intros x. cbn [delete_by_id state_of sql_delete].
    rewrite !get_all_snippets_map. split.
    + intros Hx. apply in_map_iff in Hx. destruct Hx as (r & <- & Hr).
      apply filter_In in Hr. destruct Hr as [Hr Hne].
      split; [now apply in_map|]. cbn. intros Heq. injection Heq as Heq.
      subst n. rewrite Z.eqb_refl in Hne. discriminate.
    + intros [Hx Hne]. apply in_map_iff in Hx.
      destruct Hx as (r & <- & Hr). apply in_map_iff. exists r.
      split; [reflexivity|]. apply filter_In. split; [assumption|].
      destruct (Z.eqb_spec (row_id r) n) as [Heq|]; [|reflexivity].
      exfalso. apply Hne. cbn. now rewrite Heq.
  - intros Hnd Hin. unfold rowids in Hin. apply in_map_iff in Hin.
    destruct Hin as (r & <- & Hr).
    apply In_nth_error in Hr. destruct Hr as [i Hi].
    cbn [delete_by_id state_of].
    rewrite (sql_delete_nth d i r Hnd Hi).
    unfold get_all_snippets, sql_select_all. rewrite !length_map.
    now apply (length_drop_at i d r).
Qed.

Lemma delete_by_id_removes_exactly_witness :
  S (List.length
       (get_all_snippets
          (state_of (delete_by_id (Some 3) table_with_null_language))))
  = List.length (get_all_snippets table_with_null_language).
Proof.
  apply (proj2 (delete_by_id_removes_exactly 3 table_with_null_language)).
  - cbn. repeat constructor; cbn; intuition discriminate.
  - cbn. tauto.
Defined.

(** X5. Add, then delete the id that was given: the table is back to what
    it was before the add. *)
Theorem add_then_delete_restores
    (s : Snippet.t) (c : list Z) (d d' : database) :
  add_snippet s c d = Return tt d' ->
  exists n,
    new_rowid c d = Some n
    /\ In (Some n) (map Snippet.id (get_all_snippets d'))
    /\ delete_by_id (Some n) d' = Return tt d.
Proof.
  intros Hadd. apply add_snippet_returns in Hadd.
  destruct Hadd as (n & t & k & Hn & _ & _ & ->).
  exists n. split; [assumption|]. split.
  - rewrite get_all_snippets_ids. apply in_map.
    apply rowids_insert_row. now left.
  - unfold delete_by_id. f_equal.
    match goal with
    | |- context [insert_row ?r d] =>
        apply (sql_delete_insert_row r d)
    end.
    cbn. now apply new_rowid_fresh with (c := c).
Qed.

Lemma add_then_delete_restores_witness :
  exists n,
    new_rowid [] [hello_row 2] = Some n
    /\ In (Some n)
         (map Snippet.id
            (get_all_snippets
               [hello_row 2;
                mk_row 3 (SqlText "") (SqlText "") (SqlText "text")
                  (SqlText "") (SqlText "")]))
    /\ delete_by_id (Some n)
         [hello_row 2;
          mk_row 3 (SqlText "") (SqlText "") (SqlText "text") (SqlText "")
            (SqlText "")]
       = Return tt [hello_row 2].
Proof.
  apply (add_then_delete_restores untitled [] [hello_row 2]). reflexivity.
Defined.

(** X6. Deletes compose in any order, and a delete done twice is a delete
    done once. *)
Theorem deletes_commute_and_are_idempotent (i j : option Z) (d : database) :
  state_of (delete_by_id i (state_of (delete_by_id j d)))
  = state_of (delete_by_id j (state_of (delete_by_id i d)))
  /\ state_of (delete_by_id i (state_of (delete_by_id i d)))
     = state_of (delete_by_id i d).
Proof.
  cbn. split.
  - destruct i as [n|], j as [m|]; cbn; try reflexivity.
    induction d as [|x d IH]; cbn; [reflexivity|].
    destruct (row_id x =? m) eqn:Em, (row_id x =? n) eqn:En; cbn;
      rewrite ?Em, ?En; cbn; now rewrite IH.
  - destruct i as [n|]; cbn; [|reflexivity].
    induction d as [|x d IH]; cbn; [reflexivity|].
    destruct (row_id x =? n) eqn:En; cbn; rewrite ?En; cbn; now rewrite IH.
Qed.

Lemma exec_op_not_null (o : store_op) (d : database) :
  not_null d -> not_null (state_of (exec_op o d)).
Proof.
  unfold not_null. intros Hd. destruct o as [s c|i]; cbn.
  - destruct (add_snippet s c d) as [[] d'|e d'] eqn:E; cbn.
    + apply add_snippet_returns in E.
      destruct E as (n & t & k & _ & _ & _ & ->).
      rewrite Forall_forall in *. intros x Hx.
      apply In_insert_row in Hx. destruct Hx as [->|Hx]; [now split|].
      now apply Hd.
    + apply add_snippet_raises in E. now subst.
  - destruct i as [n|]; [|assumption]. cbn.
    rewrite Forall_forall in *. intros x Hx.
    apply filter_In in Hx. now apply Hd.
Qed.

(** X7. The schema's constraints hold along every run: from a table
    without NULL title or code (an empty one, say), after any inserts and
    deletes, every record that [get_all_snippets] returns has an id, a
    string as title and a string as code. *)
Theorem run_ops_keeps_not_null (ops : list store_op) (d : database) :
  not_null d ->
  not_null (run_ops ops d)
  /\ Forall (fun x => exists n t k,
                 Snippet.id x = Some n /\ Snippet.title x = PyStr t
                 /\ Snippet.code x = PyStr k)
       (get_all_snippets (run_ops ops d)).
Proof.
  intros Hd.
  assert (Hrun : not_null (run_ops ops d)).
  { revert d Hd. induction ops as [|o ops IH]; intros d Hd; [assumption|].
    cbn. now apply IH, exec_op_not_null. }
  split; [assumption|].
  unfold get_all_snippets, sql_select_all. rewrite Forall_map.
  revert Hrun. unfold not_null. apply Forall_impl.
  intros r [Ht Hk]. cbn.
  destruct (row_title r) as [|t]; [discriminate|].
  destruct (row_code r) as [|k]; [discriminate|].
  now exists (row_id r), t, k.
Qed.

Lemma run_ops_keeps_not_null_witness :
  not_null (run_ops [OpAdd nameless []; OpAdd untitled []; OpDelete None;
                     OpAdd hello []] [])
  /\ Forall (fun x => exists n t k,
                 Snippet.id x = Some n /\ Snippet.title x = PyStr t
                 /\ Snippet.code x = PyStr k)
       (get_all_snippets
          (run_ops [OpAdd nameless []; OpAdd untitled []; OpDelete None;
                    OpAdd hello []] [])).
Proof.
  apply (run_ops_keeps_not_null
           [OpAdd nameless []; OpAdd untitled []; OpDelete None;
            OpAdd hello []] []).
  constructor.
Defined.

(** ** The highlighting helper *)

Section PygmentsExtras.

Variables lexer formatter : Type.
Variable get_lexer_by_name : pyval -> result lexer.
Variable guess_lexer : pyval -> result lexer.
Variable HtmlFormatter : result formatter.
Variable highlight : pyval -> lexer -> formatter -> result string.

(** X8. [highlight_code_html] raises in three cases and no other: the
    lookup by name, the guess and the lookup of ['text'] have all failed
    (the exception is that of the last one); a lexer was found and the
    formatter could not be built; or a lexer was found, the formatter was
    built and [highlight] raised. A failure of the lookup by name or of the
    guess alone is never what the caller sees. *)
Theorem highlight_code_html_raises_iff (code language : pyval) (e : exn) :
  highlight_code_html lexer formatter get_lexer_by_name guess_lexer
    HtmlFormatter highlight code language = Err e
  <-> (exists e1 e2,
          get_lexer_by_name language = Err e1
          /\ guess_lexer code = Err e2
          /\ get_lexer_by_name (PyStr "text") = Err e)
      \/ (exists lx,
             resolve_lexer lexer get_lexer_by_name guess_lexer code language
             = Ok lx
             /\ (HtmlFormatter = Err e
                 \/ exists fmt,
                      HtmlFormatter = Ok fmt
                      /\ highlight code lx fmt = Err e)).
Proof.
  unfold highlight_code_html. split.
  - destruct (resolve_lexer lexer get_lexer_by_name guess_lexer code language)
      as [lx|e'] eqn:Hres.
    + intros H. right. exists lx. split; [reflexivity|].
      destruct HtmlFormatter as [fmt|e'']; [right; now exists fmt|].
      left. congruence.
    + intros H. injection H as ->. left. revert Hres. unfold resolve_lexer.
      destruct (get_lexer_by_name language) as [|e1]; [discriminate|].
      destruct (guess_lexer code) as [|e2]; [discriminate|].
      intros Htext. now exists e1, e2.
  - intros [(e1 & e2 & H1 & H2 & H3)|(lx & Hres & H)].
    + unfold resolve_lexer. now rewrite H1, H2, H3.
    + rewrite Hres. destruct H as [->|(fmt & -> & H)]; [reflexivity|].
      assumption.
Qed.

(** X9. The language label matters through the lookup by name only: for
    two labels that the lookup does not know, the helper does the same
    thing on the same code. *)
Theorem unknown_languages_are_rendered_alike
    (code language language' : pyval) (e e' : exn) :
  get_lexer_by_name language = Err e ->
  get_lexer_by_name language' = Err e' ->
  highlight_code_html lexer formatter get_lexer_by_name guess_lexer
    HtmlFormatter highlight code language
  = highlight_code_html lexer formatter get_lexer_by_name guess_lexer
      HtmlFormatter highlight code language'.
Proof.
  intros H H'. unfold highlight_code_html, resolve_lexer.
  now rewrite H, H'.
Qed.

End PygmentsExtras.

Lemma unknown_languages_are_rendered_alike_witness :
  highlight_code_html string unit toy_get_lexer_by_name toy_guess_lexer
    (Ok tt) toy_highlight (PyStr "x = 1") (PyStr "cobol")
  = highlight_code_html string unit toy_get_lexer_by_name toy_guess_lexer
      (Ok tt) toy_highlight (PyStr "x = 1") PyNone.
Proof.
  apply (unknown_languages_are_rendered_alike string unit
           toy_get_lexer_by_name toy_guess_lexer (Ok tt) toy_highlight
           (PyStr "x = 1") (PyStr "cobol") PyNone ClassNotFound
           ClassNotFound); reflexivity.
Defined.

(** ** The controller *)

Section AppExtras.

Variable upper : string -> string.

Lemma has_language_b_spec (snippet : Snippet.t) :
  has_language_b snippet = true <-> has_language snippet.
Proof.
  unfold has_language_b, has_language.
  destruct (Snippet.language snippet) as [|lang]; split; intros H.
  - discriminate.
  - destruct H as [lang H]. discriminate.
  - now exists lang.
  - reflexivity.
Qed.

Lemma languages_present_forallb (d : database) :
  forallb has_language_b (get_all_snippets d) = true
  <-> languages_present d.
Proof.
  rewrite languages_present_has_language, forallb_forall, Forall_forall.
  split; intros H x Hx; apply has_language_b_spec; now apply H.
Qed.

Lemma labelled_prefix_shorter (l : list Snippet.t) :
  forallb has_language_b l = false ->
  (List.length (labelled_prefix l) < List.length l)%nat.
Proof.
  induction l as [|s l IH]; cbn; [discriminate|].
  destruct (has_language_b s); cbn; [|lia].
  intros H. specialize (IH H). lia.
Qed.

(** The loop, when a snippet has no language: it raises there, with the
    lines of the snippets met before. *)
Lemma fill_listbox_raises (l : list Snippet.t) (st : app) :
  forallb has_language_b l = false ->
  for_each l (insert_line upper) st
  = Raise AttributeError
      (mk_app (db st) (snippets st)
         (mk_listbox
            (lb_items (snippet_listbox st)
             ++ map (line_of upper) (labelled_prefix l))
            (curselection (snippet_listbox st)))
         (code_display st) (dialogs st)).
Proof.
  revert st. induction l as [|s l IH]; intros st; cbn [forallb];
    [discriminate|].
  cbn [for_each labelled_prefix]. unfold bind. rewrite insert_line_eq.
  unfold has_language_b.
  destruct (Snippet.language s) as [|lang] eqn:Hs; cbn [andb]; intros Hl.
  - cbn. rewrite app_nil_r.
    destruct st as [d sn [items sel] cd ds]. reflexivity.
  - rewrite IH by assumption. cbn. now rewrite <- app_assoc.
Qed.

Lemma load_snippets_raises (st : app) :
  forallb has_language_b (get_all_snippets (db st)) = false ->
  load_snippets upper st = Raise AttributeError (half_loaded upper st).
Proof.
  intros Hl. unfold load_snippets, bind, get, set_snippets, on_listbox.
  cbn. now rewrite fill_listbox_raises.
Qed.

(** A refresh either returns or raises [AttributeError]. *)
Lemma load_snippets_cases (st : app) :
  (languages_present (db st)
   /\ load_snippets upper st = Return tt (loaded upper st))
  \/ (~ languages_present (db st)
      /\ load_snippets upper st = Raise AttributeError (half_loaded upper st)).
Proof.
  destruct (forallb has_language_b (get_all_snippets (db st))) eqn:E.
  - left. apply languages_present_forallb in E.
    split; [assumption | now apply load_snippets_returns].
  - right. split; [|now apply load_snippets_raises].
    intros H. apply languages_present_forallb in H. congruence.
Qed.

(** X10. A refresh raises exactly when a stored row has no language. It
    then raises [AttributeError] after the in-memory list has been replaced
    and the listbox emptied and filled with the lines of the rows that come
    before the first such row: the listbox is left shorter than the
    in-memory list, the store, the detail pane and the dialogs as they
    were. *)
Theorem load_snippets_stops_at_missing_language (st : app) :
  ~ languages_present (db st) ->
  load_snippets upper st = Raise AttributeError (half_loaded upper st)
  /\ (List.length (lb_items (snippet_listbox (half_loaded upper st)))
      < List.length (snippets (half_loaded upper st)))%nat.
Proof.
  intros Hl.
  assert (E : forallb has_language_b (get_all_snippets (db st)) = false).
  { destruct (forallb has_language_b (get_all_snippets (db st))) eqn:E;
      [|reflexivity].
    apply languages_present_forallb in E. contradiction. }
  split; [now apply load_snippets_raises|].
  cbn. rewrite length_map. now apply labelled_prefix_shorter.
Qed.

(** X11. A refresh that returns has brought the window to a fixed point:
    a second refresh returns the same state. It has written neither to the
    store, nor to the detail pane, nor to the dialogs, and it leaves no
    line selected. *)
Theorem refresh_twice_is_refresh_once (st st' : app) :
  load_snippets upper st = Return tt st' ->
  load_snippets upper st' = Return tt st'
  /\ db st' = db st
  /\ code_display st' = code_display st
  /\ dialogs st' = dialogs st
  /\ curselection (snippet_listbox st') = [].
Proof.
  intros H. apply load_snippets_inv in H. destruct H as [Hl ->].
  split; [|repeat split].
  now rewrite (load_snippets_returns upper (loaded upper st)).
Qed.

(** X12. A selected index that the in-memory list does not have is
    handled like no selection at all: [show_snippet_details] does nothing,
    [delete_snippet] opens the error dialog and deletes nothing. *)
Theorem out_of_range_selection_is_handled
    (u : user) (st : app) (i : nat) (rest : list nat) :
  curselection (snippet_listbox st) = i :: rest ->
  nth_error (snippets st) i = None ->
  show_snippet_details st = Return tt st
  /\ delete_snippet upper u st
     = Return tt (with_dialogs [no_selection_dialog] st)
  /\ db (with_dialogs [no_selection_dialog] st) = db st.
Proof.
  intros Hsel Hi. split; [|split; [|reflexivity]].
  - rewrite show_snippet_details_eq, Hsel. cbn. now rewrite Hi.
  - apply (delete_snippet_out_of_range upper u st i); [|assumption].
    now rewrite Hsel.
Qed.

(** X13. Showing a snippet replaces what the detail pane held, whatever
    it held and whether or not it was editable: the pane ends disabled and
    holding the block of the selected snippet, that is its title, language
    and tags after their headings, its description under its heading, an
    empty line and its code under its heading. Nothing else changes, and
    showing again changes nothing. *)
Theorem show_snippet_details_overwrites
    (st : app) (i : nat) (rest : list nat) (snippet : Snippet.t) :
  curselection (snippet_listbox st) = i :: rest ->
  nth_error (snippets st) i = Some snippet ->
  exists st',
    show_snippet_details st = Return tt st'
    /\ code_display st'
       = mk_text
           (String.concat newline
              ["Title: " ++ shown_text (Snippet.title snippet);
               "Language: " ++ shown_text (Snippet.language snippet);
               "Tags: " ++ shown_text (Snippet.tags snippet);
               "Description:";
               shown_text (Snippet.description snippet);
               "";
               "--- CODE ---";
               shown_text (Snippet.code snippet)])
           DISABLED
    /\ db st' = db st
    /\ snippets st' = snippets st
    /\ snippet_listbox st' = snippet_listbox st
    /\ dialogs st' = dialogs st
    /\ show_snippet_details st' = Return tt st'.
Proof.
  intros Hsel Hi. eexists. split.
  - rewrite show_snippet_details_eq, Hsel. cbn. rewrite Hi. reflexivity.
  - split; [exact (f_equal (fun t => mk_text t DISABLED)
                     (details_detail_block snippet))|].
    repeat split. rewrite show_snippet_details_eq. cbn.
    rewrite Hsel. cbn. now rewrite Hi.
Qed.

(** *** The add flow, case by case *)

Lemma languages_present_insert_row_inv (r : row) (d : database) :
  languages_present (insert_row r d) -> languages_present d.
Proof.
  unfold languages_present. rewrite !Forall_forall.
  intros H x Hx. apply H, In_insert_row. now right.
Qed.

Lemma row_of_answers_language (u : user) (n : Z) :
  is_null (row_language (row_of_answers u n)) = false.
Proof.
  destruct (kept_language_str
              (answer_string u language_prompt (Some "python")))
    as (lang & El & _).
  unfold row_of_answers, snippet_of_answers. cbn. now rewrite El.
Qed.

(** What the insert of the add flow does, given a title and a code. *)
Lemma add_snippet_of_answers_cases (u : user) (c : list Z) (d : database) :
  py_not (answer_string u title_prompt None) = false ->
  py_not (answer_string u code_prompt None) = false ->
  (new_rowid c d = None
   /\ add_snippet (snippet_of_answers u) c d = Raise OperationalError d)
  \/ (exists n,
         new_rowid c d = Some n
         /\ add_snippet (snippet_of_answers u) c d
            = Return tt (insert_row (row_of_answers u n) d)).
Proof.
  unfold py_not. intros Ht Hk.
  apply negb_false_iff in Ht, Hk.
  destruct (truthy_str _ Ht) as (t & Et & _).
  destruct (truthy_str _ Hk) as (k & Ek & _).
  destruct (new_rowid c d) as [n|] eqn:Hn.
  - right. exists n. split; [reflexivity|].
    rewrite (add_snippet_succeeds (snippet_of_answers u) c d n t k Hn Et Ek).
    unfold row_of_answers. cbn. now rewrite Et, Ek.
  - left. split; [reflexivity|].
    unfold add_snippet, sql_insert, Snippet.to_tuple. cbn.
    now rewrite Hn.
Qed.

(** The three ways in which an add flow with a title and a code ends. *)
Lemma add_new_snippet_cases (u : user) (c : list Z) (st : app) :
  py_not (answer_string u title_prompt None) = false ->
  py_not (answer_string u code_prompt None) = false ->
  (new_rowid c (db st) = None
   /\ add_new_snippet upper u c st
      = Raise OperationalError (with_dialogs five_prompts st))
  \/ (exists n,
         new_rowid c (db st) = Some n
         /\ ((languages_present (db st)
              /\ add_new_snippet upper u c st
                 = Return tt
                     (with_dialogs [success_dialog u]
                        (loaded upper
                           (with_db (insert_row (row_of_answers u n) (db st))
                              (with_dialogs five_prompts st)))))
             \/ (~ languages_present (db st)
                 /\ add_new_snippet upper u c st
                    = Raise AttributeError
                        (half_loaded upper
                           (with_db
                              (insert_row (row_of_answers u n) (db st))
                              (with_dialogs five_prompts st)))))).
Proof.
  intros Ht Hk.
  destruct (add_snippet_of_answers_cases u c (db st) Ht Hk)
    as [[Hn Hadd]|(n & Hn & Hadd)].
  - left. split; [assumption|].
    rewrite (add_new_snippet_proceeds upper u c st Ht Hk).
    unfold bind at 1. unfold on_db.
    change (db (with_dialogs five_prompts st)) with (db st).
    now rewrite Hadd.
  - right. exists n. split; [assumption|].
    set (st1 := with_db (insert_row (row_of_answers u n) (db st))
                  (with_dialogs five_prompts st)).
    assert (E : add_new_snippet upper u c st
                = (load_snippets upper ;; open_dialog (success_dialog u))
                    st1).
    { rewrite (add_new_snippet_proceeds upper u c st Ht Hk).
      unfold bind at 1. unfold on_db.
      change (db (with_dialogs five_prompts st)) with (db st).
      now rewrite Hadd. }
    rewrite E. unfold bind.
    destruct (load_snippets_cases st1) as [[Hl ->]|[Hl ->]]; cbn in Hl.
    + left. split; [now apply languages_present_insert_row_inv in Hl|].
      reflexivity.
    + right. split; [|reflexivity].
      intros H. apply Hl.
      apply languages_present_insert_row; [|assumption].
      apply row_of_answers_language.
Qed.

(** The table after an add flow: the same, or one row more. *)
Lemma add_new_snippet_db (u : user) (c : list Z) (st : app) :
  db (state_of (add_new_snippet upper u c st)) = db st
  \/ (truthy (answer_string u title_prompt None) = true
      /\ truthy (answer_string u code_prompt None) = true
      /\ exists n,
           new_rowid c (db st) = Some n
           /\ db (state_of (add_new_snippet upper u c st))
              = insert_row (row_of_answers u n) (db st)).
Proof.
  destruct (py_not (answer_string u title_prompt None)) eqn:Ht.
  { left. now rewrite add_new_snippet_blank_title. }
  destruct (py_not (answer_string u code_prompt None)) eqn:Hk.
  { left. now rewrite add_new_snippet_blank_code. }
  destruct (add_new_snippet_cases u c st Ht Hk)
    as [[_ ->]|(n & Hn & [[_ ->]|[_ ->]])].
  - now left.
  - right. unfold py_not in Ht, Hk. apply negb_false_iff in Ht, Hk.
    split; [assumption|]. split; [assumption|]. now exists n.
  - right. unfold py_not in Ht, Hk. apply negb_false_iff in Ht, Hk.
    split; [assumption|]. split; [assumption|]. now exists n.
Qed.

(** X14. The dialogs of the add flow come in one fixed order and in four
    shapes only: the title prompt alone when the title is blank; the title,
    language and code prompts when the code is blank (tags and description
    are never asked for); the five prompts when the flow raises after
    them; the five prompts and then the confirmation when the flow returns,
    and then the table has one row more. *)
Theorem add_flow_dialog_sequence (u : user) (c : list Z) (st : app) :
  (py_not (answer_string u title_prompt None) = true
   /\ add_new_snippet upper u c st
      = Return tt (with_dialogs [AskString "Input" title_prompt None] st))
  \/ (py_not (answer_string u title_prompt None) = false
      /\ py_not (answer_string u code_prompt None) = true
      /\ add_new_snippet upper u c st
         = Return tt
             (with_dialogs
                [AskString "Input" title_prompt None;
                 AskString "Input" language_prompt (Some "python");
                 AskString "Input" code_prompt None] st))
  \/ (py_not (answer_string u title_prompt None) = false
      /\ py_not (answer_string u code_prompt None) = false
      /\ ((exists e st',
              add_new_snippet upper u c st = Raise e st'
              /\ opened st st' five_prompts)
          \/ (exists st',
                 add_new_snippet upper u c st = Return tt st'
                 /\ opened st st' (five_prompts ++ [success_dialog u])
                 /\ List.length (db st') = S (List.length (db st))))).
Proof.
  destruct (py_not (answer_string u title_prompt None)) eqn:Ht.
  { left. split; [reflexivity | now apply add_new_snippet_blank_title]. }
  destruct (py_not (answer_string u code_prompt None)) eqn:Hk.
  { right. left. split; [reflexivity|]. split; [reflexivity|].
    now apply add_new_snippet_blank_code. }
  right. right. split; [reflexivity|]. split; [reflexivity|].
  destruct (add_new_snippet_cases u c st Ht Hk)
    as [[_ ->]|(n & Hn & [[_ ->]|[_ ->]])].
  - left. eexists. eexists. split; [reflexivity|]. reflexivity.
  - right. eexists. split; [reflexivity|]. split.
    + unfold opened. cbn. now rewrite <- app_assoc.
    + cbn. apply length_insert_row.
  - left. eexists. eexists. split; [reflexivity|]. reflexivity.
Qed.

(** X15. The add flow never removes or changes a stored record, however
    it ends: every record listed before it is listed after it, and the
    table is either the same or has exactly one row more, the row of the
    answers under an id that was free. *)
Theorem add_flow_keeps_stored_records (u : user) (c : list Z) (st : app) :
  (forall x,
      In x (get_all_snippets (db st)) ->
      In x (get_all_snippets (db (state_of (add_new_snippet upper u c st)))))
  /\ (db (state_of (add_new_snippet upper u c st)) = db st
      \/ exists n,
           ~ In n (rowids (db st))
           /\ db (state_of (add_new_snippet upper u c st))
              = insert_row (row_of_answers u n) (db st)).
Proof.
  destruct (add_new_snippet_db u c st) as [->|(_ & _ & n & Hn & ->)].
  - split; [trivial | now left].
  - split.
    + intros x Hx. unfold get_all_snippets, sql_select_all in *.
      apply in_map_iff in Hx. destruct Hx as (r & <- & Hr).
      apply in_map_iff. exists r. split; [reflexivity|].
      apply In_insert_row. now right.
    + right. exists n. split; [|reflexivity].
      now apply new_rowid_fresh with (c := c).
Qed.

(** X16. The add flow never fails the NOT NULL constraints: its guards
    keep [None] away from the title and the code, so that what it raises
    is never [IntegrityError]. When it raises the [AttributeError] of the
    refresh (an older row has no language), the new row has been stored
    all the same, under an id that was free, and the five prompts are the
    only dialogs: no confirmation is shown for a snippet that is stored. *)
Theorem add_flow_never_fails_not_null
    (u : user) (c : list Z) (st st' : app) (e : exn) :
  add_new_snippet upper u c st = Raise e st' ->
  e <> IntegrityError
  /\ (e = AttributeError ->
      ~ languages_present (db st)
      /\ (exists n,
             ~ In n (rowids (db st))
             /\ db st' = insert_row (row_of_answers u n) (db st))
      /\ opened st st' five_prompts).
Proof.
  intros H.
  destruct (py_not (answer_string u title_prompt None)) eqn:Ht.
  { rewrite add_new_snippet_blank_title in H by assumption. discriminate. }
  destruct (py_not (answer_string u code_prompt None)) eqn:Hk.
  { rewrite add_new_snippet_blank_code in H by assumption. discriminate. }
  destruct (add_new_snippet_cases u c st Ht Hk)
    as [[Hn E]|(n & Hn & [[_ E]|[Hl E]])]; rewrite E in H.
  - injection H as <- <-. split; discriminate.
  - discriminate.
  - injection H as <- <-. split; [discriminate|]. intros _.
    split; [assumption|]. split; [|reflexivity].
    exists n. split; [|reflexivity].
    now apply new_rowid_fresh with (c := c).
Qed.

(** *** The delete flow, case by case *)

(** A confirmed delete: the row goes, then the refresh returns or
    raises. *)
Lemma delete_snippet_confirmed_cases
    (u : user) (st : app) (i : nat) (snippet : Snippet.t) :
  nth_error (curselection (snippet_listbox st)) 0 = Some i ->
  nth_error (snippets st) i = Some snippet ->
  answer_yesno u ("Are you sure you want to delete '"
                  ++ py_format (Snippet.title snippet) ++ "'?") = true ->
  (languages_present (sql_delete (Snippet.id snippet) (db st))
   /\ delete_snippet upper u st = Return tt (after_delete upper snippet st))
  \/ (~ languages_present (sql_delete (Snippet.id snippet) (db st))
      /\ delete_snippet upper u st
         = Raise AttributeError
             (half_loaded upper
                (with_db (sql_delete (Snippet.id snippet) (db st))
                   (with_dialogs [confirm_dialog snippet] st)))).
Proof.
  intros Hsel Hi Hyes.
  set (st1 := with_db (sql_delete (Snippet.id snippet) (db st))
                (with_dialogs [confirm_dialog snippet] st)).
  assert (E : delete_snippet upper u st
              = try_except
                  (load_snippets upper ;;
                   on_code_display (text_config NORMAL) ;;
                   on_code_display text_delete_all ;;
                   on_code_display (text_config DISABLED))
                  IndexError (showerror "Error"
                                "Please select a snippet to delete.") st1).
  { unfold delete_snippet, try_except, delete_snippet_body.
    unfold bind at 1. unfold get. cbv beta iota.
    unfold bind at 1. unfold py_index at 1. rewrite Hsel.
    unfold ret at 1. cbv beta iota.
    unfold bind at 1. unfold py_index at 1. rewrite Hi.
    unfold ret at 1. cbv beta iota.
    unfold bind at 1. rewrite askyesno_eq. cbv beta iota.
    rewrite Hyes.
    unfold bind at 1. unfold on_db, delete_by_id. cbv beta iota zeta.
    reflexivity. }
  rewrite E.
  destruct (load_snippets_cases st1) as [[Hl El]|[Hl El]]; cbn in Hl;
    [left | right]; (split; [assumption|]);
    unfold try_except; unfold bind at 1; rewrite El; reflexivity.
Qed.

(** The table after a delete flow: the same, or without the rows that
    bear the id of the selected snippet. *)
Lemma delete_snippet_db (u : user) (st : app) :
  db (state_of (delete_snippet upper u st)) = db st
  \/ exists i snippet,
       nth_error (curselection (snippet_listbox st)) 0 = Some i
       /\ nth_error (snippets st) i = Some snippet
       /\ db (state_of (delete_snippet upper u st))
          = sql_delete (Snippet.id snippet) (db st).
Proof.
  destruct (nth_error (curselection (snippet_listbox st)) 0)
    as [i|] eqn:Hsel.
  2:{ left. now rewrite delete_snippet_none_selected. }
  destruct (nth_error (snippets st) i) as [snippet|] eqn:Hi.
  2:{ left. now rewrite (delete_snippet_out_of_range upper u st i). }
  destruct (answer_yesno u ("Are you sure you want to delete '"
                            ++ py_format (Snippet.title snippet) ++ "'?"))
    eqn:Hans.
  - right. exists i, snippet. split; [reflexivity|].
    split; [assumption|].
    destruct (delete_snippet_confirmed_cases u st i snippet Hsel Hi Hans)
      as [[_ ->]|[_ ->]]; reflexivity.
  - left. now rewrite (delete_snippet_declined upper u st i snippet).
Qed.

(** X17. A delete that the user declines changes nothing but the log of
    dialogs, which gains the question: store, in-memory list, listbox with
    its selection and detail pane are as before. *)
Theorem declined_delete_changes_nothing
    (u : user) (st : app) (i : nat) (rest : list nat)
    (snippet : Snippet.t) :
  curselection (snippet_listbox st) = i :: rest ->
  nth_error (snippets st) i = Some snippet ->
  answer_yesno u ("Are you sure you want to delete '"
                  ++ py_format (Snippet.title snippet) ++ "'?") = false ->
  exists st',
    delete_snippet upper u st = Return tt st'
    /\ db st' = db st
    /\ snippets st' = snippets st
    /\ snippet_listbox st' = snippet_listbox st
    /\ code_display st' = code_display st
    /\ opened st st' [confirm_dialog snippet].
Proof.
  intros Hsel Hi Hno. eexists. split.
  - apply (delete_snippet_declined upper u st i snippet);
      [now rewrite Hsel | assumption | assumption].
  - repeat split.
Qed.

Lemma synced_nth (st : app) (i : nat) (snippet : Snippet.t) :
  synced st -> nth_error (snippets st) i = Some snippet ->
  exists r, nth_error (db st) i = Some r /\ snippet = record_of_row r.
Proof.
  unfold synced. intros -> Hi.
  unfold get_all_snippets, sql_select_all in Hi.
  rewrite nth_error_map in Hi.
  destruct (nth_error (db st) i) as [r|]; [|discriminate].
  injection Hi as <-. now exists r.
Qed.

Lemma get_all_snippets_drop_at (i : nat) (d : database) :
  get_all_snippets (drop_at i d) = drop_at i (get_all_snippets d).
Proof.
  unfold get_all_snippets, sql_select_all, drop_at.
  now rewrite map_app, firstn_map, skipn_map.
Qed.

(** X18. A confirmed delete removes the selected snippet and nothing
    else. In a running application (list aligned and in sync with the
    store, ids distinct), with line [i] selected: the store and the
    in-memory list both become the former list without its element [i],
    the listbox is aligned with it again, no line is selected, the detail
    pane is empty and disabled, and the question is the only dialog. *)
Theorem confirmed_delete_removes_selected
    (u : user) (st : app) (i : nat) (rest : list nat)
    (snippet : Snippet.t) :
  consistent upper st -> synced st -> NoDup (rowids (db st)) ->
  curselection (snippet_listbox st) = i :: rest ->
  nth_error (snippets st) i = Some snippet ->
  answer_yesno u ("Are you sure you want to delete '"
                  ++ py_format (Snippet.title snippet) ++ "'?") = true ->
  exists st',
    delete_snippet upper u st = Return tt st'
    /\ get_all_snippets (db st') = drop_at i (snippets st)
    /\ snippets st' = drop_at i (snippets st)
    /\ aligned upper st'
    /\ curselection (snippet_listbox st') = []
    /\ code_display st' = mk_text "" DISABLED
    /\ opened st st' [confirm_dialog snippet].
Proof.
  intros Hc Hsync Hnd Hsel Hi Hyes.
  destruct (synced_nth st i snippet Hsync Hi) as (r & Hr & ->).
  assert (Hdel : sql_delete (Snippet.id (record_of_row r)) (db st)
                 = drop_at i (db st))
    by now apply sql_delete_nth.
  assert (Hl : Forall has_language (drop_at i (snippets st))).
  { rewrite Hsync, <- get_all_snippets_drop_at, <- Hdel.
    apply languages_present_has_language, languages_present_sql_delete, Hc. }
  exists (after_delete upper (record_of_row r) st). split.
  - apply (delete_snippet_confirmed upper u st i (record_of_row r));
      [now rewrite Hsel | assumption | assumption | apply Hc].
  - unfold after_delete. cbn [db snippets snippet_listbox code_display
                               dialogs loaded with_db with_dialogs].
    rewrite Hdel, get_all_snippets_drop_at, <- Hsync.
    repeat split.
    + rewrite Hsync, <- get_all_snippets_drop_at.
      apply (length_map (line_of upper)).
    + intros k x Hk. cbn in Hk |- *.
      rewrite Forall_forall in Hl.
      destruct (Hl x (nth_error_In _ _ Hk)) as [lang Hx].
      exists lang. split; [assumption|].
      rewrite nth_error_map, Hk. cbn. unfold line_of. now rewrite Hx.
Qed.

(** *** What every callback preserves *)

Lemma settled_same_view (st st' : app) :
  db st' = db st ->
  snippets st' = snippets st ->
  lb_items (snippet_listbox st') = lb_items (snippet_listbox st) ->
  text_state (code_display st') = DISABLED ->
  settled upper st -> settled upper st'.
Proof.
  unfold settled, synced, read_only. intros Hd Hs Hi Hp (Hc & Hy & _ & Hn).
  split; [now apply (consistent_same_view upper st)|].
  rewrite Hd, Hs. tauto.
Qed.

Lemma settled_loaded (st : app) :
  languages_present (db st) -> read_only st -> NoDup (rowids (db st)) ->
  settled upper (loaded upper st).
Proof.
  intros Hl Hp Hn. split; [now apply consistent_loaded|].
  split; [reflexivity|]. split; assumption.
Qed.

Lemma add_new_snippet_settled (u : user) (c : list Z) (st : app) :
  settled upper st ->
  settled upper (state_of (add_new_snippet upper u c st)).
Proof.
  intros Hs. pose proof Hs as (Hc & Hy & Hp & Hn).
  destruct (py_not (answer_string u title_prompt None)) eqn:Ht.
  { rewrite add_new_snippet_blank_title by assumption.
    now apply (settled_same_view st). }
  destruct (py_not (answer_string u code_prompt None)) eqn:Hk.
  { rewrite add_new_snippet_blank_code by assumption.
    now apply (settled_same_view st). }
  destruct (add_new_snippet_cases u c st Ht Hk)
    as [[_ ->]|(n & Hnew & [[_ ->]|[Hl _]])].
  - now apply (settled_same_view st).
  - cbn [state_of].
    apply (settled_same_view
             (loaded upper
                (with_db (insert_row (row_of_answers u n) (db st))
                   (with_dialogs five_prompts st)))); try reflexivity.
    + exact Hp.
    + apply settled_loaded; cbn.
      * apply languages_present_insert_row;
          [apply row_of_answers_language | apply Hc].
      * exact Hp.
      * apply NoDup_insert_row; [|assumption].
        now apply new_rowid_fresh with (c := c).
  - exfalso. apply Hl, Hc.
Qed.

Lemma delete_snippet_settled (u : user) (st : app) :
  settled upper st -> settled upper (state_of (delete_snippet upper u st)).
Proof.
  intros Hs. pose proof Hs as (Hc & Hy & Hp & Hn).
  destruct (nth_error (curselection (snippet_listbox st)) 0)
    as [i|] eqn:Hsel.
  2:{ rewrite delete_snippet_none_selected by assumption.
      now apply (settled_same_view st). }
  destruct (nth_error (snippets st) i) as [snippet|] eqn:Hi.
  2:{ rewrite (delete_snippet_out_of_range upper u st i) by assumption.
      now apply (settled_same_view st). }
  destruct (answer_yesno u ("Are you sure you want to delete '"
                            ++ py_format (Snippet.title snippet) ++ "'?"))
    eqn:Hans.
  - rewrite (delete_snippet_confirmed upper u st i snippet)
      by (assumption || apply Hc).
    cbn [state_of]. unfold after_delete.
    apply (settled_same_view
             (loaded upper
                (with_db (sql_delete (Snippet.id snippet) (db st))
                   (with_dialogs [confirm_dialog snippet] st))));
      try reflexivity.
    apply settled_loaded; cbn.
    + apply languages_present_sql_delete, Hc.
    + exact Hp.
    + now apply NoDup_sql_delete.
  - rewrite (delete_snippet_declined upper u st i snippet) by assumption.
    now apply (settled_same_view st).
Qed.

Lemma select_settled (i : nat) (st : app) :
  settled upper st -> settled upper (state_of (select i st)).
Proof.
  intros Hs. pose proof Hs as (Hc & Hy & Hp & Hn).
  unfold select. unfold bind at 1. unfold on_listbox at 1.
  match goal with
  | |- context [show_snippet_details ?st1] => set (st1' := st1)
  end.
  destruct (show_snippet_details_frame st1') as (Hd & Hsn & Hb & _).
  apply (settled_same_view st); [exact Hd | exact Hsn | | | assumption].
  - rewrite Hb. cbn. apply listbox_click_items.
  - rewrite show_snippet_details_eq.
    destruct (nth_error (curselection (snippet_listbox st1')) 0) as [k|];
      [|exact Hp].
    destruct (nth_error (snippets st1') k); [reflexivity | exact Hp].
Qed.

Lemma mainloop_settled (gs : list gesture) (st : app) :
  settled upper st -> settled upper (mainloop upper gs st).
Proof.
  revert st. induction gs as [|g gs IH]; intros st Hs; [assumption|].
  cbn [mainloop]. apply IH.
  destruct g as [u c|u|i]; cbn [handle].
  - now apply add_new_snippet_settled.
  - now apply delete_snippet_settled.
  - now apply select_settled.
Qed.

(** X19. Between two callbacks of the running application, whatever the
    user has done since [__init__] returned on a file whose ids are
    distinct: the in-memory list is exactly what the store lists (no stale
    entry, none missing), the detail pane is disabled, so that it never
    takes input from the user, and the stored ids are distinct. *)
Theorem running_app_mirrors_the_store
    (file : option database) (st0 : app) (gs : list gesture) :
  app_init upper file = Return tt st0 ->
  NoDup (rowids (create_table file)) ->
  snippets (mainloop upper gs st0)
  = get_all_snippets (db (mainloop upper gs st0))
  /\ text_state (code_display (mainloop upper gs st0)) = DISABLED
  /\ NoDup (rowids (db (mainloop upper gs st0))).
Proof.
  intros Hinit Hnd.
  assert (Hs : settled upper st0).
  { unfold app_init in Hinit. apply load_snippets_inv in Hinit.
    destruct Hinit as [Hl ->]. now apply settled_loaded. }
  destruct (mainloop_settled gs st0 Hs) as (_ & Hy & Hp & Hn).
  repeat split; assumption.
Qed.

(** *** The guards of the add dialog, seen from the store *)

Lemma nonempty_text_bind_param (v : pyval) :
  nonempty_text (bind_param v) = truthy v.
Proof. destruct v; reflexivity. Qed.

Lemma guarded_row_of_answers (u : user) (n : Z) (d : database) :
  truthy (answer_string u title_prompt None) = true ->
  truthy (answer_string u code_prompt None) = true ->
  guarded d -> guarded (insert_row (row_of_answers u n) d).
Proof.
  unfold guarded. rewrite !Forall_forall. intros Ht Hk Hd x Hx.
  apply In_insert_row in Hx. destruct Hx as [->|Hx]; [|now apply Hd].
  unfold row_of_answers, snippet_of_answers. cbn.
  rewrite !nonempty_text_bind_param. repeat split; try assumption.
  destruct (kept_language_str
              (answer_string u language_prompt (Some "python")))
    as (lang & -> & Hne).
  cbn. now destruct (String.eqb_spec lang "").
Qed.

Lemma guarded_sql_delete (i : option Z) (d : database) :
  guarded d -> guarded (sql_delete i d).
Proof.
  destruct i as [n|]; [|trivial].
  unfold guarded. cbn. rewrite !Forall_forall.
  intros Hd x Hx. apply filter_In in Hx. now apply Hd.
Qed.

(** X20. Through the window, no snippet with an empty title, code or
    language ever reaches the store: if every stored row has a non-empty
    title, code and language (as in a new file), so has every stored row
    after any sequence of adds, deletes and selections, whatever the user
    answers and however the callbacks end. *)
Theorem window_never_stores_blank_fields (gs : list gesture) (st : app) :
  guarded (db st) -> guarded (db (mainloop upper gs st)).
Proof.
  revert st. induction gs as [|g gs IH]; intros st Hg; [assumption|].
  cbn [mainloop]. apply IH.
  destruct g as [u c|u|i]; cbn [handle].
  - destruct (add_new_snippet_db u c st)
      as [->|(Ht & Hk & n & _ & ->)]; [assumption|].
    now apply guarded_row_of_answers.
  - destruct (delete_snippet_db u st) as [->|(k & x & _ & _ & ->)];
      [assumption|].
    now apply guarded_sql_delete.
  - unfold select. unfold bind at 1. unfold on_listbox at 1.
    match goal with
    | |- context [show_snippet_details ?st1] =>
        destruct (show_snippet_details_frame st1) as (-> & _)
    end.
    assumption.
Qed.

(** *** Start-up and sequences of gestures *)

(** X21. Start-up keeps the file. On a new file [__init__] returns with
    an empty table, no record, no line, an empty disabled detail pane and
    no dialog. On an existing table it keeps every row as it is: when all
    rows have a language it returns with that very table as store, one
    record and one line per row, in the order of the rows, nothing
    selected and no dialog, and starting again on the store it left gives
    the same state; when a row has no language it raises [AttributeError],
    the table being still the one of the file. *)
Theorem app_init_lists_the_file (d : database) :
  app_init upper None
  = Return tt (mk_app [] [] (mk_listbox [] []) (mk_text "" DISABLED) [])
  /\ (languages_present d ->
      app_init upper (Some d)
      = Return tt
          (mk_app d (map record_of_row d)
             (mk_listbox
                (map (fun r => line_of upper (record_of_row r)) d) [])
             (mk_text "" DISABLED) [])
      /\ forall st0,
           app_init upper (Some d) = Return tt st0 ->
           app_init upper (Some (db st0)) = Return tt st0)
  /\ (~ languages_present d ->
      exists st, app_init upper (Some d) = Raise AttributeError st
                 /\ db st = d).
Proof.
  split; [reflexivity|]. split.
  - intros Hl.
    assert (E : app_init upper (Some d)
                = Return tt
                    (mk_app d (map record_of_row d)
                       (mk_listbox
                          (map (fun r => line_of upper (record_of_row r)) d)
                          [])
                       (mk_text "" DISABLED) [])).
    { unfold app_init. rewrite load_snippets_returns by exact Hl.
      unfold loaded, get_all_snippets, sql_select_all. cbn.
      now rewrite map_map. }
    split; [exact E|].
    intros st0 H0. rewrite E in H0. injection H0 as <-. exact E.
  - intros Hl. unfold app_init.
    match goal with
    | |- context [load_snippets upper ?st1] =>
        destruct (load_snippets_cases st1) as [[H _]|[_ ->]]
    end.
    + contradiction.
    + eexists. split; reflexivity.
Qed.

(** X22. A refresh leaves no line selected, so that a delete that comes
    right after a successful add deletes nothing: in a consistent state,
    with a title, a code and a free rowid, the add stores its row, and the
    delete that follows only opens the error dialog. *)
Theorem delete_right_after_add_deletes_nothing
    (u u' : user) (c : list Z) (st : app) :
  consistent upper st -> rowid_available (db st) ->
  truthy (answer_string u title_prompt None) = true ->
  truthy (answer_string u code_prompt None) = true ->
  exists st1,
    add_new_snippet upper u c st = Return tt st1
    /\ db st1 = insert_row (row_of_answers u (next_rowid (db st))) (db st)
    /\ delete_snippet upper u' st1
       = Return tt (with_dialogs [no_selection_dialog] st1).
Proof.
  intros Hc Hav Ht Hk.
  destruct (add_new_snippet_stores upper u c st Ht Hk Hav) as [_ Hret].
  eexists. split; [apply Hret, Hc|]. split; [reflexivity|].
  now apply delete_snippet_none_selected.
Qed.

End AppExtras.

(** ** The further properties at concrete inputs *)

Lemma load_snippets_stops_at_missing_language_witness :
  load_snippets ascii_upper
    (mk_app table_with_null_language [] (mk_listbox [] [])
       (mk_text "" DISABLED) [])
  = Raise AttributeError
      (mk_app table_with_null_language
         (get_all_snippets table_with_null_language)
         (mk_listbox ["[PYTHON] Hello"] []) (mk_text "" DISABLED) [])
  /\ (1 < 3)%nat.
Proof.
  apply (load_snippets_stops_at_missing_language ascii_upper
           (mk_app table_with_null_language [] (mk_listbox [] [])
              (mk_text "" DISABLED) [])).
  intros H. apply languages_present_forallb in H. discriminate.
Defined.

Lemma refresh_twice_is_refresh_once_witness :
  load_snippets ascii_upper (loaded ascii_upper one_hello)
  = Return tt (loaded ascii_upper one_hello)
  /\ db (loaded ascii_upper one_hello) = db one_hello
  /\ code_display (loaded ascii_upper one_hello) = code_display one_hello
  /\ dialogs (loaded ascii_upper one_hello) = dialogs one_hello
  /\ curselection (snippet_listbox (loaded ascii_upper one_hello)) = [].
Proof.
  apply (refresh_twice_is_refresh_once ascii_upper one_hello
           (loaded ascii_upper one_hello)).
  reflexivity.
Defined.

Lemma out_of_range_selection_is_handled_witness :
  show_snippet_details stale_selection = Return tt stale_selection
  /\ delete_snippet ascii_upper says_no stale_selection
     = Return tt (with_dialogs [no_selection_dialog] stale_selection)
  /\ db (with_dialogs [no_selection_dialog] stale_selection)
     = db stale_selection.
Proof.
  apply (out_of_range_selection_is_handled ascii_upper says_no
           stale_selection 1%nat []); reflexivity.
Defined.

Lemma show_snippet_details_overwrites_witness :
  exists st',
    show_snippet_details page_selected = Return tt st'
    /\ code_display st'
       = mk_text
           (String.concat newline
              ["Title: " ++ shown_text (PyStr "Page");
               "Language: " ++ shown_text (PyStr "html");
               "Tags: " ++ shown_text (PyStr "web,demo");
               "Description:";
               shown_text (PyStr "");
               "";
               "--- CODE ---";
               shown_text (PyStr "<p>hi</p>")])
           DISABLED
    /\ db st' = db page_selected
    /\ snippets st' = snippets page_selected
    /\ snippet_listbox st' = snippet_listbox page_selected
    /\ dialogs st' = dialogs page_selected
    /\ show_snippet_details st' = Return tt st'.
Proof.
  apply (show_snippet_details_overwrites page_selected 2%nat []
           (Snippet.mk (Some 5) (PyStr "Page") (PyStr "<p>hi</p>")
              (PyStr "html") (PyStr "web,demo") (PyStr "")));
    reflexivity.
Defined.

(** The same input, evaluated: the old text is gone, the block of the
    third snippet stands in the pane. *)
Example third_line_overwrites_the_pane :
  code_display (state_of (show_snippet_details page_selected))
  = mk_text "Title: Page
Language: html
Tags: web,demo
Description:


--- CODE ---
<p>hi</p>" DISABLED.
Proof. reflexivity. Qed.

Lemma add_flow_never_fails_not_null_witness :
  AttributeError <> IntegrityError
  /\ (AttributeError = AttributeError ->
      ~ languages_present (db null_language_app)
      /\ (exists n,
             ~ In n (rowids (db null_language_app))
             /\ db (half_loaded ascii_upper
                      (with_db
                         (insert_row (row_of_answers fills_other 4)
                            table_with_null_language)
                         (with_dialogs five_prompts null_language_app)))
                = insert_row (row_of_answers fills_other n)
                    (db null_language_app))
      /\ opened null_language_app
           (half_loaded ascii_upper
              (with_db
                 (insert_row (row_of_answers fills_other 4)
                    table_with_null_language)
                 (with_dialogs five_prompts null_language_app)))
           five_prompts).
Proof.
  apply (add_flow_never_fails_not_null ascii_upper fills_other []
           null_language_app
           (half_loaded ascii_upper
              (with_db
                 (insert_row (row_of_answers fills_other 4)
                    table_with_null_language)
                 (with_dialogs five_prompts null_language_app)))
           AttributeError).
  reflexivity.
Defined.

(** The same input, evaluated: the row is in the table, the confirmation
    is not among the dialogs. *)
Example row_stored_without_confirmation :
  rowids
    (db (state_of
           (add_new_snippet ascii_upper fills_other [] null_language_app)))
  = [1; 2; 3; 4]
  /\ dialogs
       (state_of
          (add_new_snippet ascii_upper fills_other [] null_language_app))
     = five_prompts.
Proof. split; reflexivity. Qed.

Lemma declined_delete_changes_nothing_witness :
  exists st',
    delete_snippet ascii_upper says_no hello_selected = Return tt st'
    /\ db st' = db hello_selected
    /\ snippets st' = snippets hello_selected
    /\ snippet_listbox st' = snippet_listbox hello_selected
    /\ code_display st' = code_display hello_selected
    /\ opened hello_selected st'
         [confirm_dialog (record_of_row (hello_row 1))].
Proof.
  apply (declined_delete_changes_nothing ascii_upper says_no hello_selected
           0%nat [] (record_of_row (hello_row 1))); reflexivity.
Defined.

Lemma confirmed_delete_removes_selected_witness :
  exists st',
    delete_snippet ascii_upper fills_hello hello_selected = Return tt st'
    /\ get_all_snippets (db st') = drop_at 0 (snippets hello_selected)
    /\ snippets st' = drop_at 0 (snippets hello_selected)
    /\ aligned ascii_upper st'
    /\ curselection (snippet_listbox st') = []
    /\ code_display st' = mk_text "" DISABLED
    /\ opened hello_selected st'
         [confirm_dialog (record_of_row (hello_row 1))].
Proof.
  apply (confirmed_delete_removes_selected ascii_upper fills_hello
           hello_selected 0%nat [] (record_of_row (hello_row 1)));
    try reflexivity.
  - split.
    + repeat constructor.
    + split; [reflexivity|].
      intros [|[|k]] x Hx; cbn in Hx; try discriminate.
      injection Hx as <-. exists "python". split; reflexivity.
  - cbn. repeat constructor. intros [].
Defined.

Lemma running_app_mirrors_the_store_witness :
  snippets
    (mainloop ascii_upper
       [AddNew fills_other []; Select 0%nat; Delete fills_hello]
       (loaded ascii_upper one_hello))
  = get_all_snippets
      (db (mainloop ascii_upper
             [AddNew fills_other []; Select 0%nat; Delete fills_hello]
             (loaded ascii_upper one_hello)))
  /\ text_state
       (code_display
          (mainloop ascii_upper
             [AddNew fills_other []; Select 0%nat; Delete fills_hello]
             (loaded ascii_upper one_hello)))
     = DISABLED
  /\ NoDup
       (rowids
          (db (mainloop ascii_upper
                 [AddNew fills_other []; Select 0%nat; Delete fills_hello]
                 (loaded ascii_upper one_hello)))).
Proof.
  apply (running_app_mirrors_the_store ascii_upper (Some [hello_row 1])
           (loaded ascii_upper one_hello)
           [AddNew fills_other []; Select 0%nat; Delete fills_hello]).
  - reflexivity.
  - cbn. repeat constructor. intros [].
Defined.

Lemma window_never_stores_blank_fields_witness :
  guarded
    (db (mainloop ascii_upper
           [AddNew leaves_code_blank []; AddNew cancels_optional [];
            AddNew fills_other []; Select 1%nat; Delete fills_hello]
           empty_app)).
Proof.
  apply (window_never_stores_blank_fields ascii_upper
           [AddNew leaves_code_blank []; AddNew cancels_optional [];
            AddNew fills_other []; Select 1%nat; Delete fills_hello]
           empty_app).
  constructor.
Defined.

Lemma app_init_lists_the_file_witness :
  app_init ascii_upper (Some (db three_rows))
  = Return tt
      (mk_app (db three_rows) (map record_of_row (db three_rows))
         (mk_listbox
            (map (fun r => line_of ascii_upper (record_of_row r))
               (db three_rows))
            [])
         (mk_text "" DISABLED) [])
  /\ forall st0,
       app_init ascii_upper (Some (db three_rows)) = Return tt st0 ->
       app_init ascii_upper (Some (db st0)) = Return tt st0.
Proof.
  apply (proj1 (proj2 (app_init_lists_the_file ascii_upper (db three_rows)))).
  repeat constructor.
Defined.

(** The same input, evaluated: the three rows are the store, and the
    lines are theirs, in order. *)
Example start_up_on_three_rows :
  rowids (db (state_of (app_init ascii_upper (Some (db three_rows)))))
  = [1; 2; 5]
  /\ lb_items
       (snippet_listbox
          (state_of (app_init ascii_upper (Some (db three_rows)))))
     = ["[PYTHON] Hello"; "[C] Loop"; "[HTML] Page"].
Proof. split; reflexivity. Qed.

Lemma delete_right_after_add_deletes_nothing_witness :
  exists st1,
    add_new_snippet ascii_upper fills_other [] (loaded ascii_upper one_hello)
    = Return tt st1
    /\ db st1
       = insert_row
           (row_of_answers fills_other
              (next_rowid (db (loaded ascii_upper one_hello))))
           (db (loaded ascii_upper one_hello))
    /\ delete_snippet ascii_upper fills_hello st1
       = Return tt (with_dialogs [no_selection_dialog] st1).
Proof.
  apply (delete_right_after_add_deletes_nothing ascii_upper fills_other
           fills_hello [] (loaded ascii_upper one_hello));
    try reflexivity.
  apply consistent_loaded. repeat constructor.
Defined.
